(** * SNS feed API: route handlers over a relational store

    A shallow embedding of the Next.js route handlers of the repository
    (app/api/posts, app/api/posts/[postId], app/api/likes, app/api/comments,
    app/api/follows) together with the part of the feed component that drives
    pagination.  Every handler is a sequence of guarded steps with early
    returns over a database and a storage bucket; they are written here in a
    small state-and-early-return monad so that each definition can be read
    next to the TypeScript it embeds.

    Conventions.
    - JavaScript strings are [string]; one [ascii] stands for one code unit
      below 256.
    - JavaScript numbers are doubles; the ones the handlers compute with are
      NaN, an infinity, or a double with an integer value, and arithmetic
      rounds to the nearest double.
    - Timestamps are [Z] (ordered as the database orders them). *)

From Stdlib Require Import List String Ascii ZArith Bool Arith Lia.
From Stdlib Require Import Sorting.Sorted Sorting.Permutation.
From Stdlib Require Import DecimalString DecimalNat.
Import ListNotations.

Local Open Scope string_scope.
Local Open Scope list_scope.

Definition uuid := string.
Definition timestamp := Z.

(** A JavaScript number as the handlers meet it: NaN, a finite double whose
    value is the integer [z], or an infinity. *)
Inductive number :=
| NaN
| Num (z : Z)
| Infinity (negative : bool).

(** ** Rows of the five base relations (lib/types.ts) *)

Module User.
Record t := mk { id : uuid; clerk_id : string; name : string; created_at : timestamp }.
End User.

Module Post.
Record t := mk {
    id : uuid; user_id : uuid; image_url : string; caption : option string;
    created_at : timestamp; updated_at : timestamp }.
End Post.

Module Like.
Record t := mk { id : uuid; post_id : uuid; user_id : uuid; created_at : timestamp }.
End Like.

Module Comment.
Record t := mk {
    id : uuid; post_id : uuid; user_id : uuid; content : string;
    created_at : timestamp; updated_at : timestamp }.
End Comment.

Module Follow.
Record t := mk { id : uuid; follower_id : uuid; following_id : uuid; created_at : timestamp }.
End Follow.

(** A row of the [post_stats] view, restricted to the columns the handlers
    select. *)
Module PostStats.
Record t := mk {
    post_id : uuid; user_id : uuid; image_url : string; caption : option string;
    created_at : timestamp; likes_count : Z; comments_count : Z }.
End PostStats.

(** [PostWithUser] of lib/types.ts: the shape of a post in API responses. *)
Module PostWithUser.
Record t := mk {
    id : uuid; user_id : uuid; image_url : string; caption : option string;
    created_at : timestamp; updated_at : timestamp;
    likes_count : Z; comments_count : Z; user : User.t; is_liked : bool }.
End PostWithUser.

Module CommentWithUser.
Record t := mk { comment : Comment.t; user : User.t }.
End CommentWithUser.

(** ** The store: five tables and the [posts] storage bucket *)

Record Db := mkDb {
  users : list User.t;
  posts : list Post.t;
  likes : list Like.t;
  comments : list Comment.t;
  follows : list Follow.t;
  bucket : list string
}.

Definition set_posts (db : Db) (ps : list Post.t) : Db :=
  mkDb (users db) ps (likes db) (comments db) (follows db) (bucket db).
Definition set_likes (db : Db) (ls : list Like.t) : Db :=
  mkDb (users db) (posts db) ls (comments db) (follows db) (bucket db).
Definition set_comments (db : Db) (cs : list Comment.t) : Db :=
  mkDb (users db) (posts db) (likes db) cs (follows db) (bucket db).
Definition set_follows (db : Db) (fs : list Follow.t) : Db :=
  mkDb (users db) (posts db) (likes db) (comments db) fs (bucket db).
Definition set_bucket (db : Db) (b : list string) : Db :=
  mkDb (users db) (posts db) (likes db) (comments db) (follows db) b.

(** ** Results of the database client *)

Record PgError := mkPgError { code : string; message : string }.

Record PgResult (A : Type) := mkPgResult { data : option A; error : option PgError }.
Arguments mkPgResult {A} _ _.
Arguments data {A} _.
Arguments error {A} _.

Definition ok {A} (a : A) : PgResult A := mkPgResult (Some a) None.
Definition failed {A} (e : PgError) : PgResult A := mkPgResult None (Some e).

Definition unique_violation : PgError := mkPgError "23505" "duplicate key value violates unique constraint".
Definition foreign_key_violation : PgError := mkPgError "23503" "insert or update on table violates foreign key constraint".
Definition check_violation : PgError := mkPgError "23514" "new row for relation violates check constraint".
Definition not_single_row : PgError := mkPgError "PGRST116" "JSON object requested, multiple (or no) rows returned".
Definition bad_range : PgError := mkPgError "PGRST103" "Requested range not satisfiable".
Definition object_exists : PgError := mkPgError "409" "The resource already exists".

(** [.single()]: exactly one row, or an error. *)
Definition single {A} (rows : list A) : PgResult A :=
  match rows with
  | [r] => ok r
  | _ => failed not_single_row
  end.

(** ** Call sites and the environment of one request

    Every call to the database or to storage can fail for reasons outside the
    model (network, policy, outage): [fault] names, per call site, the error
    the backend answers with, [None] when the statement is executed.  The
    remaining fields are the values a request draws from outside: the id and
    the time the database gives to an inserted row, the stem of the generated
    object name, the public URL prefix of the bucket and the platform's URL
    parser. *)

Inductive Site :=
| CurrentUser | PostLookup | PostStatsLookup | PostStatsRange | OwnerLookup
| UsersIn | LikesIn | LikeLookup | LikeInsert | LikeDelete
| CommentLookup | CommentInsert | CommentDelete | CommentAuthor
| TargetUser | FollowLookup | FollowInsert | FollowDelete
| PostInsert | PostDelete | StorageUpload | StorageRemove.

Record Env := mkEnv {
  fault : Site -> option PgError;
  remove_rejects : bool;               (* the promise of storage [remove] rejects *)
  gen_random_uuid : uuid;              (* default id of an inserted row *)
  now : timestamp;                     (* default created_at / updated_at *)
  file_stem : string;                  (* `${Date.now()}-${Math.random()...}` *)
  storage_url : string;                (* base URL of the storage client *)
  pathname : string -> option string   (* [new URL(s).pathname], [None] when it throws *)
}.

Definition no_fault : Site -> option PgError := fun _ => None.

(** ** Responses *)

Inductive Body :=
| ErrorBody (error : string) (details : option string)
| PostListBody (data : list PostWithUser.t) (has_more : bool) (next_offset : option number)
| PostDetailBody (data : PostWithUser.t)
| PostCreatedBody (post : Post.t)
| LikeAddedBody (like : Like.t)
| CommentCreatedBody (comment : CommentWithUser.t)
| FollowAddedBody (follow : Follow.t)
| SuccessBody (message : string).

Record Response := mkResponse { status : nat; body : Body }.

(** [NextResponse.json(body, { status })]; the status is 200 when omitted. *)
Definition json (b : Body) (st : option nat) : Response :=
  mkResponse (match st with Some s => s | None => 200%nat end) b.

Definition error_json (msg : string) (st : nat) : Response :=
  json (ErrorBody msg None) (Some st).

(** ** The handler monad: state, early return, exception *)

Inductive Step (A : Type) :=
| Next (a : A)
| Return (r : Response)
| Throw.
Arguments Next {A} _.
Arguments Return {A} _.
Arguments Throw {A}.

Definition Handler (A : Type) := Db -> Step A * Db.

Definition ret {A} (a : A) : Handler A := fun db => (Next a, db).

Definition bind {A B} (m : Handler A) (k : A -> Handler B) : Handler B :=
  fun db =>
    match m db with
    | (Next a, db') => k a db'
    | (Return r, db') => (Return r, db')
    | (Throw, db') => (Throw, db')
    end.

Definition respond {A} (r : Response) : Handler A := fun db => (Return r, db).
Definition throw {A} : Handler A := fun db => (Throw, db).

(** [if (c) return r;] *)
Definition return_if (c : bool) (r : Response) : Handler unit :=
  if c then respond r else ret tt.

Notation "x <- m ;; k" := (bind m (fun x => k))
  (at level 61, m at next level, right associativity).
Notation "m ;;; k" := (bind m (fun _ => k))
  (at level 61, right associativity).

(** [try { ... } catch (error) { return 500 }] around a whole handler. *)
Definition try_catch (h : Handler Response) (db : Db) : Response * Db :=
  match h db with
  | (Next r, db') => (r, db')
  | (Return r, db') => (r, db')
  | (Throw, db') => (error_json "Internal server error" 500, db')
  end.

(** A statement sent to the backend at call site [s]. *)
Definition query {A} (env : Env) (s : Site) (q : Db -> PgResult A * Db)
  : Handler (PgResult A) :=
  fun db =>
    match fault env s with
    | Some e => (Next (failed e), db)
    | None => let (r, db') := q db in (Next r, db')
    end.

Definition read {A} (env : Env) (s : Site) (q : Db -> PgResult A) : Handler (PgResult A) :=
  query env s (fun db => (q db, db)).

(** ** JavaScript values of a parsed JSON body *)

#[warnings="-register-all"]
Inductive JsValue :=
| JsUndefined
| JsNull
| JsBool (b : bool)
| JsNumber (z : Z)
| JsString (s : string)
| JsArray
| JsObject (fields : list (string * JsValue)).

(** [!!v] *)
Definition truthy (v : JsValue) : bool :=
  match v with
  | JsUndefined | JsNull => false
  | JsBool b => b
  | JsNumber z => negb (z =? 0)%Z
  | JsString s => negb (s =? "")
  | JsArray | JsObject _ => true
  end.

Definition typeof (v : JsValue) : string :=
  match v with
  | JsUndefined => "undefined"
  | JsNull => "object"
  | JsBool _ => "boolean"
  | JsNumber _ => "number"
  | JsString _ => "string"
  | JsArray | JsObject _ => "object"
  end.

(** The string behind a value the handler has checked to be a string. *)
Definition as_string (v : JsValue) : string :=
  match v with JsString s => s | _ => "" end.

Fixpoint assoc (k : string) (fields : list (string * JsValue)) : JsValue :=
  match fields with
  | [] => JsUndefined
  | (k', v) :: rest => if k' =? k then v else assoc k rest
  end.

(** [const { k } = body;] throws on [null] and [undefined], reads a property
    otherwise (primitives and arrays have no such property). *)
Definition destructure (k : string) (b : JsValue) : Handler JsValue :=
  match b with
  | JsUndefined | JsNull => throw
  | JsObject fields => ret (assoc k fields)
  | _ => ret JsUndefined
  end.

(** [await request.json()]: [None] is a body that is not JSON. *)
Definition request_json (raw : option JsValue) : Handler JsValue :=
  match raw with
  | Some v => ret v
  | None => throw
  end.

(** [!clerkUserId] for the [string | null] that [auth()] yields. *)
Definition no_session (clerkUserId : option string) : bool :=
  match clerkUserId with
  | None => true
  | Some s => s =? ""
  end.

Definition session_id (clerkUserId : option string) : string :=
  match clerkUserId with Some s => s | None => "" end.

(** [if (xError || !x)] *)
Definition missing {A} (r : PgResult A) : bool :=
  match error r, data r with
  | None, Some _ => false
  | _, _ => true
  end.

(** [const { data: x, error: xError } = ...; if (xError || !x) return r;]
    followed by uses of [x]. *)
Definition or_return {A} (r : PgResult A) (resp : Response) : Handler A :=
  match error r, data r with
  | None, Some a => ret a
  | _, _ => respond resp
  end.

(** A row read after the error has been ruled out: [x.id] on [null] is a
    TypeError. *)
Definition deref {A} (r : PgResult A) : Handler A :=
  match data r with
  | Some a => ret a
  | None => throw
  end.

(** ** Statements

    The tables are lists of rows in insertion order.  Ids are opaque strings;
    an inserted row gets its id and creation time from the database (here
    from [Env]), and the generated id is taken to be fresh. *)

Definition has_user (id : uuid) (db : Db) : bool :=
  existsb (fun u => User.id u =? id) (users db).

Definition has_post (id : uuid) (db : Db) : bool :=
  existsb (fun p => Post.id p =? id) (posts db).

Definition same_like (post_id user_id : uuid) (l : Like.t) : bool :=
  (Like.post_id l =? post_id) && (Like.user_id l =? user_id).

Definition same_follow (follower_id following_id : uuid) (f : Follow.t) : bool :=
  (Follow.follower_id f =? follower_id) && (Follow.following_id f =? following_id).

Definition users_by_clerk_id (clerk_id : string) (db : Db) : list User.t :=
  filter (fun u => User.clerk_id u =? clerk_id) (users db).

Definition users_by_id (id : uuid) (db : Db) : list User.t :=
  filter (fun u => User.id u =? id) (users db).

Definition posts_by_id (id : uuid) (db : Db) : list Post.t :=
  filter (fun p => Post.id p =? id) (posts db).

Definition comments_by_id (id : uuid) (db : Db) : list Comment.t :=
  filter (fun c => Comment.id c =? id) (comments db).

Definition likes_of (post_id user_id : uuid) (db : Db) : list Like.t :=
  filter (same_like post_id user_id) (likes db).

Definition follows_of (follower_id following_id : uuid) (db : Db) : list Follow.t :=
  filter (same_follow follower_id following_id) (follows db).

(** Modelled from the spec: the schema migration (initial_schema.sql) is not
    among the sources; as the spec and docs/DATABASE_SETUP.md have it, a like
    is unique per (post_id, user_id) and references an existing post and
    user. *)
Definition insert_like (env : Env) (post_id user_id : uuid) (db : Db)
  : PgResult Like.t * Db :=
  if existsb (same_like post_id user_id) (likes db) then
    (failed unique_violation, db)
  else if negb (has_post post_id db) || negb (has_user user_id db) then
    (failed foreign_key_violation, db)
  else
    let row := Like.mk (gen_random_uuid env) post_id user_id (now env) in
    (ok row, set_likes db (likes db ++ [row])).

Definition delete_likes (post_id user_id : uuid) (db : Db) : PgResult unit * Db :=
  (ok tt, set_likes db (filter (fun l => negb (same_like post_id user_id l)) (likes db))).

(** Modelled from the spec: the follows table of the missing migration; a
    follow is unique per (follower_id, following_id), never relates a user to
    themselves, and references existing users. *)
Definition insert_follow (env : Env) (follower_id following_id : uuid) (db : Db)
  : PgResult Follow.t * Db :=
  if existsb (same_follow follower_id following_id) (follows db) then
    (failed unique_violation, db)
  else if follower_id =? following_id then
    (failed check_violation, db)
  else if negb (has_user follower_id db) || negb (has_user following_id db) then
    (failed foreign_key_violation, db)
  else
    let row := Follow.mk (gen_random_uuid env) follower_id following_id (now env) in
    (ok row, set_follows db (follows db ++ [row])).

Definition delete_follow (id : uuid) (db : Db) : PgResult unit * Db :=
  (ok tt, set_follows db (filter (fun f => negb (Follow.id f =? id)) (follows db))).

(** Modelled from the spec: the comments table of the missing migration; a
    comment references an existing post and user. *)
Definition insert_comment (env : Env) (post_id user_id : uuid) (content : string) (db : Db)
  : PgResult Comment.t * Db :=
  if negb (has_post post_id db) || negb (has_user user_id db) then
    (failed foreign_key_violation, db)
  else
    let row := Comment.mk (gen_random_uuid env) post_id user_id content (now env) (now env) in
    (ok row, set_comments db (comments db ++ [row])).

Definition delete_comment (id : uuid) (db : Db) : PgResult unit * Db :=
  (ok tt, set_comments db (filter (fun c => negb (Comment.id c =? id)) (comments db))).

(** Modelled from the spec: the posts table of the missing migration; a post
    references an existing user. *)
Definition insert_post (env : Env) (user_id : uuid) (image_url : string)
    (caption : option string) (db : Db) : PgResult Post.t * Db :=
  if negb (has_user user_id db) then
    (failed foreign_key_violation, db)
  else
    let row := Post.mk (gen_random_uuid env) user_id image_url caption (now env) (now env) in
    (ok row, set_posts db (posts db ++ [row])).

(** Modelled from the spec: the foreign keys of the missing migration;
    deleting a post cascades to its likes and comments. *)
Definition delete_post (id : uuid) (db : Db) : PgResult unit * Db :=
  (ok tt,
   mkDb (users db)
        (filter (fun p => negb (Post.id p =? id)) (posts db))
        (filter (fun l => negb (Like.post_id l =? id)) (likes db))
        (filter (fun c => negb (Comment.post_id c =? id)) (comments db))
        (follows db)
        (bucket db)).

(** Storage: [upload] with [upsert: false] refuses an existing path;
    [remove] deletes the listed path. *)
Definition storage_upload (path : string) (db : Db) : PgResult string * Db :=
  if existsb (String.eqb path) (bucket db) then (failed object_exists, db)
  else (ok path, set_bucket db (path :: bucket db)).

Definition storage_remove (path : string) (db : Db) : PgResult unit * Db :=
  (ok tt, set_bucket db (filter (fun p => negb (p =? path)) (bucket db))).

(** ** Requests with a JSON body (likes, comments, follows) *)

Record JsonRequest := mkJsonRequest {
  session : option string;      (* userId of [auth()] *)
  json_body : option JsValue    (* the body, [None] when it is not JSON *)
}.

(** Step 4 of every handler below: the requester's row, by Clerk id. *)
Definition current_user (env : Env) (clerkUserId : string) : Handler User.t :=
  r <- read env CurrentUser (fun db => single (users_by_clerk_id clerkUserId db)) ;;
  or_return r (error_json "User not found" 404).

(** ** app/api/likes/route.ts *)

Module Likes.

Definition POST (env : Env) (req : JsonRequest) : Db -> Response * Db :=
    try_catch (
      return_if (no_session (session req)) (error_json "Unauthorized" 401) ;;;
      let clerkUserId := session_id (session req) in
      body <- request_json (json_body req) ;;
      post_id <- destructure "post_id" body ;;
      return_if (negb (truthy post_id) || negb (typeof post_id =? "string"))
                (error_json "post_id is required" 400) ;;;
      let post_id := as_string post_id in
      currentUser <- current_user env clerkUserId ;;
      post <- read env PostLookup (fun db => single (posts_by_id post_id db)) ;;
      post <- or_return post (error_json "Post not found" 404) ;;
      like <- query env LikeInsert (insert_like env post_id (User.id currentUser)) ;;
      match error like with
      | Some likeError =>
          if code likeError =? "23505" then
            respond (error_json "Already liked" 409)
          else
            respond (json (ErrorBody "Failed to add like" (Some (message likeError))) (Some 500%nat))
      | None =>
          like <- deref like ;;
          ret (json (LikeAddedBody like) None)
      end).

Definition DELETE (env : Env) (req : JsonRequest) : Db -> Response * Db :=
    try_catch (
      return_if (no_session (session req)) (error_json "Unauthorized" 401) ;;;
      let clerkUserId := session_id (session req) in
      body <- request_json (json_body req) ;;
      post_id <- destructure "post_id" body ;;
      return_if (negb (truthy post_id) || negb (typeof post_id =? "string"))
                (error_json "post_id is required" 400) ;;;
      let post_id := as_string post_id in
      currentUser <- current_user env clerkUserId ;;
      deleted <- query env LikeDelete (delete_likes post_id (User.id currentUser)) ;;
      match error deleted with
      | Some deleteError =>
          respond (json (ErrorBody "Failed to remove like" (Some (message deleteError))) (Some 500%nat))
      | None => ret (json (SuccessBody "Like removed") None)
      end).

End Likes.

(** ** Strings: whitespace, [trim], [split(".").pop()], [split("?")[0]] *)

(** White space code units below 256: TAB, LF, VT, FF, CR, SP, NBSP. *)
Definition is_white_space (c : ascii) : bool :=
  let n := nat_of_ascii c in
  ((9 <=? n) && (n <=? 13))%nat || (n =? 32)%nat || (n =? 160)%nat.

Fixpoint trim_start (s : string) : string :=
  match s with
  | String c rest => if is_white_space c then trim_start rest else s
  | EmptyString => EmptyString
  end.

Fixpoint reverse (s acc : string) : string :=
  match s with
  | String c rest => reverse rest (String c acc)
  | EmptyString => acc
  end.

Definition trim (s : string) : string :=
  reverse (trim_start (reverse (trim_start s) "")) "".

(** The segment after the last [sep], the whole string when there is none:
    [s.split(sep).pop()]. *)
Fixpoint last_segment (sep : ascii) (s cur : string) : string :=
  match s with
  | String c rest =>
      if Ascii.eqb c sep then last_segment sep rest ""
      else last_segment sep rest (String c cur)
  | EmptyString => reverse cur ""
  end.

(** The segment before the first [sep]: [s.split(sep)[0]]. *)
Fixpoint first_segment (sep : ascii) (s : string) : string :=
  match s with
  | String c rest => if Ascii.eqb c sep then "" else String c (first_segment sep rest)
  | EmptyString => ""
  end.

(** The capture of [/\/posts\/(.+)$/] in a path: what follows the first
    ["/posts/"] that has something after it. *)
Fixpoint after_posts (path : string) : option string :=
  match path with
  | EmptyString => None
  | String _ rest =>
      if prefix "/posts/" path then
        match substring 7 (length path - 7) path with
        | EmptyString => None
        | tail => Some tail
        end
      else after_posts rest
  end.

(** ** app/api/follows/route.ts *)

Module Follows.

Definition POST (env : Env) (req : JsonRequest) : Db -> Response * Db :=
    try_catch (
      return_if (no_session (session req)) (error_json "Unauthorized" 401) ;;;
      let clerkUserId := session_id (session req) in
      body <- request_json (json_body req) ;;
      following_id <- destructure "following_id" body ;;
      return_if (negb (truthy following_id) || negb (typeof following_id =? "string"))
                (error_json "following_id is required" 400) ;;;
      let following_id := as_string following_id in
      currentUser <- current_user env clerkUserId ;;
      return_if (User.id currentUser =? following_id)
                (error_json "Cannot follow yourself" 400) ;;;
      targetUser <- read env TargetUser (fun db => single (users_by_id following_id db)) ;;
      targetUser <- or_return targetUser (error_json "Target user not found" 404) ;;
      existingFollow <- read env FollowLookup
        (fun db => single (follows_of (User.id currentUser) following_id db)) ;;
      return_if (match data existingFollow with Some _ => true | None => false end)
                (error_json "Already following this user" 400) ;;;
      follow <- query env FollowInsert (insert_follow env (User.id currentUser) following_id) ;;
      match error follow with
      | Some followError =>
          if code followError =? "23505" then
            respond (error_json "Already following this user" 400)
          else
            respond (json (ErrorBody "Failed to follow user" (Some (message followError))) (Some 500%nat))
      | None =>
          follow <- deref follow ;;
          ret (json (FollowAddedBody follow) None)
      end).

Definition DELETE (env : Env) (req : JsonRequest) : Db -> Response * Db :=
    try_catch (
      return_if (no_session (session req)) (error_json "Unauthorized" 401) ;;;
      let clerkUserId := session_id (session req) in
      body <- request_json (json_body req) ;;
      following_id <- destructure "following_id" body ;;
      return_if (negb (truthy following_id) || negb (typeof following_id =? "string"))
                (error_json "following_id is required" 400) ;;;
      let following_id := as_string following_id in
      currentUser <- current_user env clerkUserId ;;
      follow <- read env FollowLookup
        (fun db => single (follows_of (User.id currentUser) following_id db)) ;;
      follow <- or_return follow (error_json "Follow relationship not found" 404) ;;
      return_if (negb (Follow.follower_id follow =? User.id currentUser))
                (error_json "Forbidden: You can only unfollow users you are following" 403) ;;;
      deleted <- query env FollowDelete (delete_follow (Follow.id follow)) ;;
      match error deleted with
      | Some deleteError =>
          respond (json (ErrorBody "Failed to unfollow user" (Some (message deleteError))) (Some 500%nat))
      | None => ret (json (SuccessBody "Unfollowed successfully") None)
      end).

End Follows.

(** ** app/api/comments/route.ts *)

Module Comments.

Definition POST (env : Env) (req : JsonRequest) : Db -> Response * Db :=
    try_catch (
      return_if (no_session (session req)) (error_json "Unauthorized" 401) ;;;
      let clerkUserId := session_id (session req) in
      body <- request_json (json_body req) ;;
      post_id <- destructure "post_id" body ;;
      content <- destructure "content" body ;;
      return_if (negb (truthy post_id) || negb (typeof post_id =? "string"))
                (error_json "post_id is required" 400) ;;;
      return_if (negb (truthy content) || negb (typeof content =? "string")
                 || (length (trim (as_string content)) =? 0)%nat)
                (error_json "content is required and cannot be empty" 400) ;;;
      let post_id := as_string post_id in
      let content := as_string content in
      currentUser <- current_user env clerkUserId ;;
      post <- read env PostLookup (fun db => single (posts_by_id post_id db)) ;;
      post <- or_return post (error_json "Post not found" 404) ;;
      comment <- query env CommentInsert
        (insert_comment env post_id (User.id currentUser) (trim content)) ;;
      match error comment with
      | Some commentError =>
          respond (json (ErrorBody "Failed to create comment" (Some (message commentError))) (Some 500%nat))
      | None =>
          user <- read env CommentAuthor (fun db => single (users_by_id (User.id currentUser) db)) ;;
          comment <- deref comment ;;
          let author :=
            match data user with
            | Some u => u
            | None => User.mk (User.id currentUser) clerkUserId "Unknown" (Comment.created_at comment)
            end in
          ret (json (CommentCreatedBody (CommentWithUser.mk comment author)) None)
      end).

Definition DELETE (env : Env) (req : JsonRequest) : Db -> Response * Db :=
    try_catch (
      return_if (no_session (session req)) (error_json "Unauthorized" 401) ;;;
      let clerkUserId := session_id (session req) in
      body <- request_json (json_body req) ;;
      comment_id <- destructure "comment_id" body ;;
      return_if (negb (truthy comment_id) || negb (typeof comment_id =? "string"))
                (error_json "comment_id is required" 400) ;;;
      let comment_id := as_string comment_id in
      currentUser <- current_user env clerkUserId ;;
      comment <- read env CommentLookup (fun db => single (comments_by_id comment_id db)) ;;
      comment <- or_return comment (error_json "Comment not found" 404) ;;
      return_if (negb (Comment.user_id comment =? User.id currentUser))
                (error_json "Forbidden: You can only delete your own comments" 403) ;;;
      deleted <- query env CommentDelete (delete_comment comment_id) ;;
      match error deleted with
      | Some deleteError =>
          respond (json (ErrorBody "Failed to delete comment" (Some (message deleteError))) (Some 500%nat))
      | None => ret (json (SuccessBody "Comment deleted") None)
      end).

End Comments.

(** ** JavaScript numbers: [parseInt], [Math.min], [+], [-], [toString] *)

Definition digit_value (c : ascii) : option Z :=
  let n := Z.of_nat (nat_of_ascii c) in
  if ((48 <=? n) && (n <=? 57))%Z then Some (n - 48)%Z
  else if ((97 <=? n) && (n <=? 122))%Z then Some (n - 87)%Z
  else if ((65 <=? n) && (n <=? 90))%Z then Some (n - 55)%Z
  else None.

Definition digit_of (radix : Z) (c : ascii) : option Z :=
  match digit_value c with
  | Some d => if (d <? radix)%Z then Some d else None
  | None => None
  end.

(** The value of the longest prefix of radix-[radix] digits, [acc] so far;
    [None] when there is no digit at all. *)
Fixpoint digits (radix : Z) (s : string) (acc : option Z) : option Z :=
  match s with
  | String c rest =>
      match digit_of radix c with
      | Some d =>
          digits radix rest (Some (radix * match acc with Some a => a | None => 0 end + d)%Z)
      | None => acc
      end
  | EmptyString => acc
  end.

(** [Number.MAX_SAFE_INTEGER], 2^53 - 1: up to it every integer is a double. *)
Definition MAX_SAFE_INTEGER : Z := 9007199254740991.

(** The double nearest to the integer [z]: the 53 leading bits of [z], rounded
    on the bits that are dropped, a tie going to the even neighbour; an
    infinity when the rounded value reaches 2^1024. *)
Definition to_double (z : Z) : number :=
  let a := Z.abs z in
  let e := (Z.log2 a - 52)%Z in
  if (e <=? 0)%Z then Num z
  else
    let ulp := (2 ^ e)%Z in
    let q := (a / ulp)%Z in
    let r := (a mod ulp)%Z in
    let q' := if (ulp <? 2 * r)%Z || ((2 * r =? ulp)%Z && Z.odd q) then (q + 1)%Z else q in
    let m := (q' * ulp)%Z in
    if (2 ^ 1024 <=? m)%Z then Infinity (z <? 0)%Z
    else Num (if (z <? 0)%Z then (- m)%Z else m).

(** [parseInt(s)] with no radix argument: leading white space, a sign, an
    optional [0x] prefix, then digits; NaN when no digit follows. *)
Definition parseInt (s : string) : number :=
  let s := trim_start s in
  let '(negative, s) :=
    match s with
    | String "-" rest => (true, rest)
    | String "+" rest => (false, rest)
    | _ => (false, s)
    end in
  let '(radix, s) :=
    match s with
    | String "0" (String x rest) =>
        if Ascii.eqb x "x" || Ascii.eqb x "X" then (16%Z, rest) else (10%Z, s)
    | _ => (10%Z, s)
    end in
  match digits radix s None with
  | Some n => to_double (if negative then (- n)%Z else n)
  | None => NaN
  end.

(** [Math.min(a, b)] for a finite [b]. *)
Definition math_min (a : number) (b : Z) : number :=
  match a with
  | Num x => Num (Z.min x b)
  | Infinity true => Infinity true
  | Infinity false => Num b
  | NaN => NaN
  end.

Definition js_add (a b : number) : number :=
  match a, b with
  | Num x, Num y => to_double (x + y)
  | Infinity s, Infinity t => if Bool.eqb s t then Infinity s else NaN
  | Infinity s, Num _ => Infinity s
  | Num _, Infinity t => Infinity t
  | _, _ => NaN
  end.

Definition js_sub (a b : number) : number :=
  match a, b with
  | Num x, Num y => to_double (x - y)
  | Infinity s, Infinity t => if Bool.eqb s t then NaN else Infinity s
  | Infinity s, Num _ => Infinity s
  | Num _, Infinity t => Infinity (negb t)
  | _, _ => NaN
  end.

(** [n === m] for an array length [n] and a number [m]. *)
Definition length_is (n : nat) (m : number) : bool :=
  match m with
  | Num z => (Z.of_nat n =? z)%Z
  | _ => false
  end.

(** The decimal numeral of [n]; it is [n.toString()] for a non-negative
    integer below 10^21. *)
Definition to_string (n : nat) : string :=
  NilEmpty.string_of_uint (Nat.to_uint n).

(** [s || d] for the [string | null] of [searchParams.get]. *)
Definition or_default (s : option string) (d : string) : string :=
  match s with
  | Some (String c rest) => String c rest
  | _ => d
  end.

(** ** The [post_stats] view and its range query *)

(** Modelled from the spec: the view is created by the schema migration, which
    is not among the sources.  It has one row per post with the post's columns
    and the number of likes and comments that reference it. *)
Definition post_stats_row (db : Db) (p : Post.t) : PostStats.t :=
  PostStats.mk (Post.id p) (Post.user_id p) (Post.image_url p) (Post.caption p)
    (Post.created_at p)
    (Z.of_nat (List.length (filter (fun l => Like.post_id l =? Post.id p) (likes db))))
    (Z.of_nat (List.length (filter (fun c => Comment.post_id c =? Post.id p) (comments db)))).

Definition post_stats (db : Db) : list PostStats.t :=
  map (post_stats_row db) (posts db).

Fixpoint insert_desc (r : PostStats.t) (rows : list PostStats.t) : list PostStats.t :=
  match rows with
  | [] => [r]
  | r' :: rest =>
      if (PostStats.created_at r' <=? PostStats.created_at r)%Z then r :: r' :: rest
      else r' :: insert_desc r rest
  end.

(** [.order("created_at", { ascending: false })]; rows with equal
    [created_at] stay in table order. *)
Definition order_by_created_at_desc (rows : list PostStats.t) : list PostStats.t :=
  fold_right insert_desc [] rows.

(** All rows the list query ranges over: the optional [user_id] filter, then
    the order. *)
Definition feed_rows (userId : option string) (db : Db) : list PostStats.t :=
  order_by_created_at_desc
    (match userId with
     | Some (String c rest) =>
         filter (fun r => PostStats.user_id r =? String c rest) (post_stats db)
     | _ => post_stats db
     end).

(** [.range(from, to)] sends [offset = from] and [limit = to - from + 1]; the
    backend refuses what is not a finite number or is negative, and answers
    an offset past the end with no rows. *)
Definition range {A} (from to : number) (rows : list A) : PgResult (list A) :=
  match from, to with
  | Num f, Num t =>
      let limit := (t - f + 1)%Z in
      if (f <? 0)%Z || (limit <? 0)%Z then failed bad_range
      else ok (firstn (Z.to_nat limit) (skipn (Z.to_nat f) rows))
  | _, _ => failed bad_range
  end.

(** ** app/api/posts/route.ts *)

Module File.
Record t := mk { name : string; size : Z; type : string }.
End File.

(** What [formData.get] yields for a field that is present. *)
Inductive FormEntry :=
| FileEntry (f : File.t)
| TextEntry (s : string).

Record FormData := mkFormData {
  image_field : option FormEntry;
  caption_field : option FormEntry
}.

Record ListRequest := mkListRequest {
  list_session : option string;
  limit_param : option string;     (* searchParams.get("limit") *)
  offset_param : option string;    (* searchParams.get("offset") *)
  userId_param : option string     (* searchParams.get("userId") *)
}.

Record CreateRequest := mkCreateRequest {
  create_session : option string;
  form : option FormData           (* [None] when the body is not form data *)
}.

Definition MAX_FILE_SIZE : Z := 5 * 1024 * 1024.
Definition ALLOWED_MIME_TYPES : list string :=
  ["image/jpeg"; "image/png"; "image/webp"; "image/gif"].
Definition MAX_CAPTION_LENGTH : nat := 2200.

(** [!!image] *)
Definition entry_truthy (e : option FormEntry) : bool :=
  match e with
  | Some (FileEntry _) => true
  | Some (TextEntry s) => negb (s =? "")
  | None => false
  end.

(** [image.size > max]; a text entry has no [size]. *)
Definition size_exceeds (e : option FormEntry) (max : Z) : bool :=
  match e with
  | Some (FileEntry f) => (max <? File.size f)%Z
  | _ => false
  end.

(** [types.includes(image.type)]; a text entry has no [type]. *)
Definition type_allowed (types : list string) (e : option FormEntry) : bool :=
  match e with
  | Some (FileEntry f) => existsb (String.eqb (File.type f)) types
  | _ => false
  end.

(** [caption?.trim() || null]; a file has no [trim]. *)
Definition caption_text (e : option FormEntry) : Handler (option string) :=
  match e with
  | None => ret None
  | Some (TextEntry s) =>
      match trim s with
      | EmptyString => ret None
      | t => ret (Some t)
      end
  | Some (FileEntry _) => throw
  end.

(** The file behind an entry that passed the type check. *)
Definition as_file (e : option FormEntry) : Handler File.t :=
  match e with
  | Some (FileEntry f) => ret f
  | _ => throw
  end.

Definition request_form (raw : option FormData) : Handler FormData :=
  match raw with
  | Some f => ret f
  | None => throw
  end.

(** [await p] for the promise of storage [remove]. *)
Definition remove_object (env : Env) (path : string) : Handler (PgResult unit) :=
  if remove_rejects env then throw
  else query env StorageRemove (storage_remove path).

(** [await p.catch(() => {})] *)
Definition catch_ignore {A} (m : Handler A) : Handler unit :=
  fun db =>
    match m db with
    | (Next _, db') => (Next tt, db')
    | (Throw, db') => (Next tt, db')
    | (Return r, db') => (Return r, db')
    end.

(** [new Map(users.map((u) => [u.id, u])).get(k)]: a later entry replaces an
    earlier one with the same key. *)
Definition map_get (k : uuid) (entries : list User.t) : option User.t :=
  find (fun u => User.id u =? k) (rev entries).

(** [encodeURI(s)]: letters, digits and the marks ; / ? : @ & = + $ , # - _ .
    ! ~ * ' ( ) stay; any other code unit becomes the percent escapes of its
    UTF-8 bytes, one byte below 128 and two from 128 on. *)
Definition uri_kept (c : ascii) : bool :=
  let n := nat_of_ascii c in
  ((48 <=? n) && (n <=? 57) || (65 <=? n) && (n <=? 90) || (97 <=? n) && (n <=? 122))%nat
  || existsb (Ascii.eqb c) (list_ascii_of_string ";/?:@&=+$,#-_.!~*'()").

Definition hex_digit (n : nat) : ascii :=
  nth n (list_ascii_of_string "0123456789ABCDEF") "0"%char.

Definition percent (byte : nat) : string :=
  String "%" (String (hex_digit (byte / 16)) (String (hex_digit (byte mod 16)) "")).

Fixpoint encodeURI (s : string) : string :=
  match s with
  | EmptyString => ""
  | String c rest =>
      let n := nat_of_ascii c in
      ((if uri_kept c then String c ""
        else if (n <? 128)%nat then percent n
        else percent (192 + n / 64) ++ percent (128 + n mod 64))
       ++ encodeURI rest)%string
  end.

(** [supabase.storage.from("posts").getPublicUrl(path).data.publicUrl]: the
    storage client joins its base URL, the bucket and the path and passes the
    result through [encodeURI]. *)
Definition getPublicUrl (env : Env) (path : string) : string :=
  encodeURI (storage_url env ++ "/object/public/posts/" ++ path).

(** [n || 0] *)
Definition or_zero (n : Z) : Z := if (n =? 0)%Z then 0%Z else n.

Definition or_empty {A} (l : option (list A)) : list A :=
  match l with Some l => l | None => [] end.

Definition is_empty {A} (l : list A) : bool :=
  match l with [] => true | _ => false end.

Module Posts.

Definition format_post (usersMap : list User.t) (likedPostIds : list uuid)
      (post : PostStats.t) : PostWithUser.t :=
    let user := map_get (PostStats.user_id post) usersMap in
    PostWithUser.mk
      (PostStats.post_id post)
      (PostStats.user_id post)
      (PostStats.image_url post)
      (PostStats.caption post)
      (PostStats.created_at post)
      (PostStats.created_at post)
      (or_zero (PostStats.likes_count post))
      (or_zero (PostStats.comments_count post))
      (match user with
       | Some u => u
       | None => User.mk (PostStats.user_id post) "" "Unknown" (PostStats.created_at post)
       end)
      (existsb (String.eqb (PostStats.post_id post)) likedPostIds).

Definition GET (env : Env) (req : ListRequest) : Db -> Response * Db :=
    try_catch (
      return_if (no_session (list_session req)) (error_json "Unauthorized" 401) ;;;
      let clerkUserId := session_id (list_session req) in
      let limit := math_min (parseInt (or_default (limit_param req) "10")) 50 in
      let offset := parseInt (or_default (offset_param req) "0") in
      let userId := userId_param req in
      currentUser <- current_user env clerkUserId ;;
      posts <- read env PostStatsRange
        (fun db => range offset (js_sub (js_add offset limit) (Num 1)) (feed_rows userId db)) ;;
      match error posts with
      | Some postsError =>
          respond (json (ErrorBody "Failed to fetch posts" (Some (message postsError))) (Some 500%nat))
      | None =>
          let posts := or_empty (data posts) in
          let userIds := nodup string_dec (map PostStats.user_id posts) in
          usersMap <-
            (if is_empty userIds then ret []
             else
               users <- read env UsersIn
                 (fun db => ok (filter (fun u => existsb (String.eqb (User.id u)) userIds) (users db))) ;;
               match error users with
               | Some usersError => ret []
               | None => ret (or_empty (data users))
               end) ;;
          let postIds := map PostStats.post_id posts in
          likedPostIds <-
            (if is_empty postIds then ret []
             else
               likes <- read env LikesIn
                 (fun db => ok (map Like.post_id
                   (filter (fun l => (Like.user_id l =? User.id currentUser)
                                     && existsb (String.eqb (Like.post_id l)) postIds)
                           (likes db)))) ;;
               ret (or_empty (data likes))) ;;
          let formattedPosts := map (format_post usersMap likedPostIds) posts in
          let hasMore := length_is (List.length formattedPosts) limit in
          ret (json (PostListBody formattedPosts hasMore
                       (if hasMore then Some (js_add offset limit) else None))
                    None)
      end).

Definition POST (env : Env) (req : CreateRequest) : Db -> Response * Db :=
    try_catch (
      return_if (no_session (create_session req)) (error_json "Unauthorized" 401) ;;;
      let clerkUserId := session_id (create_session req) in
      formData <- request_form (form req) ;;
      let image := image_field formData in
      let caption := caption_field formData in
      return_if (negb (entry_truthy image)) (error_json "Image is required" 400) ;;;
      return_if (size_exceeds image MAX_FILE_SIZE)
        (error_json
           ("File size exceeds " ++ to_string (Z.to_nat (MAX_FILE_SIZE / 1024 / 1024)) ++ "MB limit")%string
           400) ;;;
      return_if (negb (type_allowed ALLOWED_MIME_TYPES image))
        (error_json "Invalid file type. Only JPEG, PNG, WebP, and GIF are allowed" 400) ;;;
      captionText <- caption_text caption ;;
      return_if (match captionText with
                 | Some t => (MAX_CAPTION_LENGTH <? length t)%nat
                 | None => false
                 end)
        (error_json ("Caption exceeds " ++ to_string MAX_CAPTION_LENGTH ++ " characters")%string 400) ;;;
      currentUser <- current_user env clerkUserId ;;
      image <- as_file image ;;
      let fileExt :=
        match last_segment "." (File.name image) "" with
        | EmptyString => "jpg"
        | ext => ext
        end in
      let fileName := (file_stem env ++ "." ++ fileExt)%string in
      let filePath := (clerkUserId ++ "/" ++ fileName)%string in
      upload <- query env StorageUpload (storage_upload filePath) ;;
      match error upload with
      | Some uploadError =>
          respond (json (ErrorBody "Failed to upload image" (Some (message uploadError))) (Some 500%nat))
      | None =>
          uploadData <- deref upload ;;
          let imageUrl := getPublicUrl env filePath in
          post <- query env PostInsert (insert_post env (User.id currentUser) imageUrl captionText) ;;
          match error post with
          | Some postError =>
              catch_ignore (remove_object env filePath) ;;;
              respond (json (ErrorBody "Failed to create post" (Some (message postError))) (Some 500%nat))
          | None =>
              post <- deref post ;;
              ret (json (PostCreatedBody post) None)
          end
      end).

End Posts.

(** ** app/api/posts/[postId]/route.ts *)

Record PostRequest := mkPostRequest {
  post_session : option string;
  postId : string                  (* the route parameter *)
}.

Module PostById.

Definition GET (env : Env) (req : PostRequest) : Db -> Response * Db :=
    try_catch (
      let postId := postId req in
      return_if (postId =? "") (error_json "postId is required" 400) ;;;
      let clerkUserId := post_session req in
      postStats <- read env PostStatsLookup
        (fun db => single (filter (fun r => PostStats.post_id r =? postId) (post_stats db))) ;;
      postStats <- or_return postStats
        (json (ErrorBody "Post not found" (option_map message (error postStats))) (Some 404%nat)) ;;
      post <- read env PostLookup (fun db => single (posts_by_id postId db)) ;;
      post <- or_return post
        (json (ErrorBody "Post not found" (option_map message (error post))) (Some 404%nat)) ;;
      user <- read env OwnerLookup (fun db => single (users_by_id (Post.user_id post) db)) ;;
      user <- or_return user
        (json (ErrorBody "User not found" (option_map message (error user))) (Some 404%nat)) ;;
      isLiked <-
        (if no_session clerkUserId then ret false
         else
           currentUser <- read env CurrentUser
             (fun db => single (users_by_clerk_id (session_id clerkUserId) db)) ;;
           match data currentUser with
           | Some currentUser =>
               like <- read env LikeLookup
                 (fun db => single (likes_of postId (User.id currentUser) db)) ;;
               ret (match data like with Some _ => true | None => false end)
           | None => ret false
           end) ;;
      let postWithUser :=
        PostWithUser.mk
          (Post.id post) (Post.user_id post) (Post.image_url post) (Post.caption post)
          (Post.created_at post) (Post.updated_at post)
          (or_zero (PostStats.likes_count postStats))
          (or_zero (PostStats.comments_count postStats))
          user isLiked in
      ret (json (PostDetailBody postWithUser) None)).

Definition DELETE (env : Env) (req : PostRequest) : Db -> Response * Db :=
    try_catch (
      return_if (no_session (post_session req)) (error_json "Unauthorized" 401) ;;;
      let clerkUserId := session_id (post_session req) in
      let postId := postId req in
      return_if (postId =? "") (error_json "postId is required" 400) ;;;
      currentUser <- current_user env clerkUserId ;;
      post <- read env PostLookup (fun db => single (posts_by_id postId db)) ;;
      post <- or_return post
        (json (ErrorBody "Post not found" (option_map message (error post))) (Some 404%nat)) ;;
      return_if (negb (Post.user_id post =? User.id currentUser))
                (error_json "Forbidden: You can only delete your own posts" 403) ;;;
      let filePath :=
        match pathname env (Post.image_url post) with
        | Some path =>
            match after_posts path with
            | Some captured => Some (first_segment "?" captured)
            | None => None
            end
        | None => None
        end in
      match filePath with
      | Some (String c rest) => storage <- remove_object env (String c rest) ;; ret tt
      | _ => ret tt
      end ;;;
      deleted <- query env PostDelete (delete_post postId) ;;
      match error deleted with
      | Some deleteError =>
          respond (json (ErrorBody "Failed to delete post" (Some (message deleteError))) (Some 500%nat))
      | None => ret (json (SuccessBody "Post deleted successfully") None)
      end).

End PostById.

(** ** components/post/PostFeed.tsx: the pagination driver

    [loadPosts(currentOffset, append)] fetches one page with the given page
    size, appends it, records [has_more] and moves the offset on by the number
    of posts received; the sentinel calls it again as long as [hasMore] is
    set.  [load_all] is that loop, with the pages kept apart; [fuel] bounds
    the number of fetches, [None] means a failed fetch or no fuel left.  The
    component always asks for 10 posts; the page size is a parameter here. *)

Module PostFeed.

Definition response_ok (r : Response) : bool :=
    ((200 <=? status r) && (status r <=? 299))%nat.

Fixpoint load_all (fuel : nat) (env : Env) (clerkUserId userId : option string)
      (limit currentOffset : nat) (db : Db) : option (list (list PostWithUser.t)) :=
    match fuel with
    | O => None
    | S fuel' =>
        let req := mkListRequest clerkUserId (Some (to_string limit))
                     (Some (to_string currentOffset)) userId in
        let response := fst (Posts.GET env req db) in
        if response_ok response then
          match body response with
          | PostListBody newPosts has_more _ =>
              if has_more then
                option_map (cons newPosts)
                  (load_all fuel' env clerkUserId userId limit
                     (currentOffset + List.length newPosts) db)
              else Some [newPosts]
          | _ => None
          end
        else None
    end.

End PostFeed.

(** ** Vocabulary of the statements *)

(** The session's subject [clerk] resolves to the users row [u]. *)
Definition signed_in (clerk : string) (u : User.t) (db : Db) : Prop :=
  clerk <> "" /\ users_by_clerk_id clerk db = [u].

(** A request whose JSON body is an object with the given fields. *)
Definition json_request (clerk : string) (fields : list (string * JsValue)) : JsonRequest :=
  mkJsonRequest (Some clerk) (Some (JsObject fields)).

(** The values of [limit] and [offset] in the list handler. *)
Definition page_limit (req : ListRequest) : number :=
  math_min (parseInt (or_default (limit_param req) "10")) 50.

Definition page_offset (req : ListRequest) : number :=
  parseInt (or_default (offset_param req) "0").

(** The posts the list query ranges over, before ordering. *)
Definition visible_posts (userId : option string) (db : Db) : list Post.t :=
  match userId with
  | Some (String c rest) => filter (fun p => Post.user_id p =? String c rest) (posts db)
  | _ => posts db
  end.

Definition newer_first (a b : PostStats.t) : Prop :=
  (PostStats.created_at b <= PostStats.created_at a)%Z.

(** A form that passes the checks of the create handler: [f] is the image,
    [text] the caption the handler stores. *)
Definition accepted_form (fd : FormData) (f : File.t) (text : option string) : Prop :=
  image_field fd = Some (FileEntry f)
  /\ (File.size f <= MAX_FILE_SIZE)%Z
  /\ In (File.type f) ALLOWED_MIME_TYPES
  /\ ((caption_field fd = None /\ text = None)
      \/ exists s, caption_field fd = Some (TextEntry s)
                   /\ (length (trim s) <= MAX_CAPTION_LENGTH)%nat
                   /\ text = match trim s with EmptyString => None | t => Some t end).

(** The object path the create handler uploads to. *)
Definition upload_path (env : Env) (clerk : string) (f : File.t) : string :=
  (clerk ++ "/" ++ file_stem env ++ "." ++
   match last_segment "." (File.name f) "" with
   | EmptyString => "jpg"
   | ext => ext
   end)%string.

Definition ceil_div (n p : nat) : nat := ((n + p - 1) / p)%nat.

(** The posts of a list response, none for any other response. *)
Definition page_of (r : Response) : list PostWithUser.t :=
  match body r with
  | PostListBody data _ _ => data
  | _ => []
  end.

(** ** A sample store

    Two users, three posts (the first one edited after it was created), one
    like, one comment, one follow and one stored object. *)

Module Sample.

Definition ann : User.t := User.mk "u-ann" "clerk_ann" "Ann" 1%Z.
Definition bob : User.t := User.mk "u-bob" "clerk_bob" "Bob" 2%Z.

Definition url (path : string) : string :=
    ("https://proj.supabase.co/storage/v1/object/public/posts/" ++ path)%string.

Definition p1 : Post.t := Post.mk "p1" "u-ann" (url "clerk_ann/1-a.jpg") None 10%Z 15%Z.
Definition p2 : Post.t := Post.mk "p2" "u-bob" (url "clerk_bob/2-b.png") (Some "hi") 20%Z 20%Z.
Definition p3 : Post.t := Post.mk "p3" "u-bob" (url "clerk_bob/3-c.gif") None 30%Z 30%Z.

Definition l1 : Like.t := Like.mk "l1" "p2" "u-ann" 21%Z.
Definition c1 : Comment.t := Comment.mk "c1" "p1" "u-bob" "nice" 12%Z 12%Z.
Definition f1 : Follow.t := Follow.mk "f1" "u-ann" "u-bob" 5%Z.

Definition db : Db :=
    mkDb [ann; bob] [p1; p2; p3] [l1] [c1] [f1]
         ["clerk_ann/1-a.jpg"; "clerk_bob/2-b.png"; "clerk_bob/3-c.gif"].

  (** The URL parser on the sample URLs: the part after the host. *)
Definition path_of (s : string) : option string :=
    if prefix "https://proj.supabase.co" s
    then Some (substring 24 (length s - 24) s)
    else None.

Definition env : Env :=
    mkEnv no_fault false "fresh-id" 100%Z "100-k3x9" "https://proj.supabase.co/storage/v1" path_of.

  (** The same environment with one call site failing. *)
Definition failing (s : Site) (e : PgError) : Env :=
    mkEnv (fun s' => match s, s' with
                     | PostInsert, PostInsert | LikeInsert, LikeInsert
                     | CurrentUser, CurrentUser => Some e
                     | _, _ => None
                     end)
          false "fresh-id" 100%Z "100-k3x9" "https://proj.supabase.co/storage/v1" path_of.

Definition jpeg (size : Z) : File.t := File.mk "cat.jpg" size "image/jpeg".

End Sample.

(** A second store: sixty posts of one user, each newer than the one before. *)
Module Crowd.

Definition post (i : nat) : Post.t :=
    Post.mk (to_string i) "u-ann" (Sample.url "clerk_ann/1-a.jpg") None (Z.of_nat i) (Z.of_nat i).

Definition db : Db := mkDb [Sample.ann] (map post (seq 1 60)) [] [] [] [].

End Crowd.

(** ** Further vocabulary *)

(** Every code unit of [s] is white space. *)
Fixpoint all_white_space (s : string) : bool :=
  match s with
  | EmptyString => true
  | String c rest => is_white_space c && all_white_space rest
  end.

(** [s] is empty or starts with something other than white space. *)
Definition clean_start (s : string) : Prop :=
  match s with
  | EmptyString => True
  | String c _ => is_white_space c = false
  end.

(** [s] is empty or ends with something other than white space. *)
Definition clean_end (s : string) : Prop := clean_start (reverse s "").

(** Every code unit of [s] is one that [encodeURI] keeps. *)
Fixpoint uri_plain (s : string) : bool :=
  match s with
  | EmptyString => true
  | String c rest => uri_kept c && uri_plain rest
  end.

(** [s] holds the code unit [c]. *)
Fixpoint has_char (c : ascii) (s : string) : bool :=
  match s with
  | EmptyString => false
  | String c' rest => Ascii.eqb c' c || has_char c rest
  end.

(** No row of the follows table carries the id [id]. *)
Definition fresh_follow_id (id : uuid) (db : Db) : Prop :=
  existsb (fun f => Follow.id f =? id) (follows db) = false.

(** The users and the liked post ids that the list handler fetches for the
    rows of a page, as the handler gets them from an environment [env]. *)
Definition page_users (env : Env) (db : Db) (rows : list PostStats.t) : list User.t :=
  let userIds := nodup string_dec (map PostStats.user_id rows) in
  if is_empty userIds then []
  else match fault env UsersIn with
       | Some _ => []
       | None => filter (fun u => existsb (String.eqb (User.id u)) userIds) (users db)
       end.

Definition page_likes (env : Env) (me : User.t) (db : Db) (rows : list PostStats.t)
  : list uuid :=
  let postIds := map PostStats.post_id rows in
  if is_empty postIds then []
  else match fault env LikesIn with
       | Some _ => []
       | None =>
           map Like.post_id
               (filter (fun l => (Like.user_id l =? User.id me)
                                 && existsb (String.eqb (Like.post_id l)) postIds)
                       (likes db))
       end.

(** The author shown for a post whose owner could not be fetched. *)
Definition unknown_author (row : PostStats.t) : User.t :=
  User.mk (PostStats.user_id row) "" "Unknown" (PostStats.created_at row).

Arguments users_by_clerk_id : simpl never.
Arguments users_by_id : simpl never.
Arguments posts_by_id : simpl never.
Arguments comments_by_id : simpl never.
Arguments likes_of : simpl never.
Arguments follows_of : simpl never.
Arguments has_user : simpl never.
Arguments has_post : simpl never.
Arguments same_like : simpl never.
Arguments same_follow : simpl never.
Arguments insert_like : simpl never.
Arguments insert_follow : simpl never.
Arguments insert_comment : simpl never.
Arguments insert_post : simpl never.
Arguments feed_rows : simpl never.
Arguments parseInt : simpl never.
Arguments to_string : simpl never.
Arguments trim : simpl never.
Arguments String.eqb : simpl nomatch.

(** * Properties *)

(** ** Basic facts about the monad and the statements *)

Ltac unfold_handler :=
  unfold try_catch, bind, return_if, respond, ret, throw, request_json,
    destructure, current_user, read, query, or_return, deref, catch_ignore,
    remove_object, request_form, as_file, json_request in *.

Lemma not_empty_eqb (s : string) : s <> "" -> (s =? "") = false.
Proof. intro H. now apply String.eqb_neq. Qed.

Lemma no_session_some (clerk : string) : clerk <> "" -> no_session (Some clerk) = false.
Proof. intro H. simpl. now apply not_empty_eqb. Qed.

Lemma string_field_accepted (s : string) :
  s <> "" -> negb (truthy (JsString s)) || negb (typeof (JsString s) =? "string") = false.
Proof. intro H. simpl. now rewrite (not_empty_eqb s H). Qed.

Lemma filter_singleton_existsb {A} (f : A -> bool) (l : list A) (x : A) :
  filter f l = [x] -> existsb f l = true.
Proof.
  intro H. apply existsb_exists. exists x.
  assert (In x (filter f l)) as Hin by (rewrite H; now left).
  apply filter_In in Hin. exact Hin.
Qed.

Lemma filter_singleton_In {A} (f : A -> bool) (l : list A) (x : A) :
  filter f l = [x] -> In x l /\ f x = true.
Proof.
  intro H. apply filter_In. rewrite H. now left.
Qed.

Lemma signed_in_has_user clerk u db : signed_in clerk u db -> has_user (User.id u) db = true.
Proof.
  intros [_ H]. apply filter_singleton_In in H as [Hin _].
  unfold has_user. apply existsb_exists. exists u. split; [exact Hin | apply String.eqb_refl].
Qed.

Lemma existsb_filter_nil {A} (f : A -> bool) (l : list A) :
  existsb f l = false -> filter f l = [].
Proof.
  induction l as [|a l IH]; simpl; intro H; [reflexivity|].
  apply orb_false_iff in H as [Ha Hl]. rewrite Ha. now apply IH.
Qed.

Lemma existsb_app_last {A} (f : A -> bool) (l : list A) (x : A) :
  f x = true -> existsb f (l ++ [x]) = true.
Proof. intro H. rewrite existsb_app. simpl. rewrite H. apply orb_true_iff. right. reflexivity. Qed.

Lemma same_like_refl p u : same_like p u (Like.mk "" p u 0%Z) = true.
Proof. unfold same_like. simpl. now rewrite !String.eqb_refl. Qed.

(** The run of the add-like handler up to the insert. *)
Lemma likes_POST_reaches_insert env clerk fields p u post db :
  assoc "post_id" fields = JsString p -> p <> "" ->
  signed_in clerk u db ->
  posts_by_id p db = [post] ->
  fault env CurrentUser = None -> fault env PostLookup = None ->
  Likes.POST env (json_request clerk fields) db =
    match fault env LikeInsert with
    | Some e =>
        (if code e =? "23505" then error_json "Already liked" 409
         else json (ErrorBody "Failed to add like" (Some (message e))) (Some 500%nat), db)
    | None =>
        if existsb (same_like p (User.id u)) (likes db) then (error_json "Already liked" 409, db)
        else
          let row := Like.mk (gen_random_uuid env) p (User.id u) (now env) in
          (json (LikeAddedBody row) None, set_likes db (likes db ++ [row]))
    end.
Proof.
  intros Hf Hp [Hc Hu] Hpost F1 F2.
  pose proof (signed_in_has_user clerk u db (conj Hc Hu)) as Huser.
  pose proof (filter_singleton_existsb _ _ _ Hpost) as Hhas.
  unfold Likes.POST. unfold_handler. cbn [session json_body session_id].
  rewrite (no_session_some clerk Hc). cbn. rewrite Hf, (string_field_accepted p Hp).
  cbn. rewrite F1. cbn. rewrite Hu. cbn. rewrite F2. cbn. rewrite Hpost. cbn.
  destruct (fault env LikeInsert) as [e|]; cbn.
  - destruct (code e =? "23505"); reflexivity.
  - unfold insert_like. destruct (existsb (same_like p (User.id u)) (likes db)); cbn.
    + reflexivity.
    + unfold has_post. rewrite Hhas, Huser. cbn. reflexivity.
Qed.

Lemma filter_nonempty_existsb {A} (f : A -> bool) (l : list A) :
  filter f l <> [] -> existsb f l = true.
Proof.
  intro H. destruct (existsb f l) eqn:E; [reflexivity|].
  now apply existsb_filter_nil in E.
Qed.

Lemma filter_nil_existsb {A} (f : A -> bool) (l : list A) :
  filter f l = [] -> existsb f l = false.
Proof.
  induction l as [|a l IH]; simpl; intro H; [reflexivity|].
  destruct (f a); [discriminate|]. now apply IH.
Qed.

(** C1.  Adding a like that is already stored answers 409 "Already liked" and
    leaves the store as it is; the unique-violation code 23505, and only that
    code, is turned into 409 (any other insert error is the generic 500); a
    first like on an existing post appends exactly one row and succeeds, and a
    second request then answers 409 with that single row still in place. *)
Theorem duplicate_like_is_conflict :
  forall env clerk fields p u post db,
    assoc "post_id" fields = JsString p -> p <> "" ->
    signed_in clerk u db ->
    posts_by_id p db = [post] ->
    fault env CurrentUser = None -> fault env PostLookup = None ->
    (fault env LikeInsert = None -> likes_of p (User.id u) db <> [] ->
       Likes.POST env (json_request clerk fields) db = (error_json "Already liked" 409, db))
    /\ (forall e, fault env LikeInsert = Some e ->
          Likes.POST env (json_request clerk fields) db =
            (if code e =? "23505" then error_json "Already liked" 409
             else json (ErrorBody "Failed to add like" (Some (message e))) (Some 500%nat), db))
    /\ (fault env LikeInsert = None -> likes_of p (User.id u) db = [] ->
          exists like,
            let db1 := set_likes db (likes db ++ [like]) in
            Likes.POST env (json_request clerk fields) db = (json (LikeAddedBody like) None, db1)
            /\ Like.post_id like = p /\ Like.user_id like = User.id u
            /\ likes_of p (User.id u) db1 = [like]
            /\ forall env',
                 fault env' CurrentUser = None -> fault env' PostLookup = None ->
                 fault env' LikeInsert = None ->
                 Likes.POST env' (json_request clerk fields) db1
                   = (error_json "Already liked" 409, db1)).
Proof.
  intros env clerk fields p u post db Hf Hp Hs Hpost F1 F2.
  repeat split.
  - intros F3 Hex.
    rewrite (likes_POST_reaches_insert env clerk fields p u post db Hf Hp Hs Hpost F1 F2), F3.
    unfold likes_of in Hex. now rewrite (filter_nonempty_existsb _ _ Hex).
  - intros e F3.
    now rewrite (likes_POST_reaches_insert env clerk fields p u post db Hf Hp Hs Hpost F1 F2), F3.
  - intros F3 Hnone.
    set (row := Like.mk (gen_random_uuid env) p (User.id u) (now env)).
    assert (same_like p (User.id u) row = true) as Hrow
      by (unfold same_like, row; cbn; now rewrite !String.eqb_refl).
    exists row. cbv zeta. repeat split.
    + rewrite (likes_POST_reaches_insert env clerk fields p u post db Hf Hp Hs Hpost F1 F2), F3.
      unfold likes_of in Hnone. now rewrite (filter_nil_existsb _ _ Hnone).
    + unfold likes_of in *. cbn. rewrite filter_app, Hnone. cbn. now rewrite Hrow.
    + intros env' G1 G2 G3.
      rewrite (likes_POST_reaches_insert env' clerk fields p u post
                 (set_likes db (likes db ++ [row])) Hf Hp Hs Hpost G1 G2), G3.
      cbn [likes set_likes]. now rewrite (existsb_app_last _ _ _ Hrow).
Qed.

Lemma duplicate_like_is_conflict_witness :
  Likes.POST Sample.env (json_request "clerk_ann" [("post_id", JsString "p2")]) Sample.db
    = (error_json "Already liked" 409, Sample.db)
  /\ exists like,
       Likes.POST Sample.env (json_request "clerk_ann" [("post_id", JsString "p1")]) Sample.db
         = (json (LikeAddedBody like) None, set_likes Sample.db (likes Sample.db ++ [like])).
Proof.
  split.
  - apply (duplicate_like_is_conflict Sample.env "clerk_ann" [("post_id", JsString "p2")]
             "p2" Sample.ann Sample.p2 Sample.db);
      try reflexivity; try discriminate.
    split; [discriminate | reflexivity].
  - destruct (duplicate_like_is_conflict Sample.env "clerk_ann" [("post_id", JsString "p1")]
                "p1" Sample.ann Sample.p1 Sample.db) as (_ & _ & H);
      try reflexivity; try discriminate.
    + split; [discriminate | reflexivity].
    + destruct (H eq_refl eq_refl) as (like & Hrun & _). exists like. exact Hrun.
Defined.

(** Running a handler on a request whose outcome at each step is known from
    the context. *)
Ltac known_strings :=
  repeat match goal with
  | H : ?s <> EmptyString |- _ =>
      lazymatch goal with
      | _ : (s =? "") = false |- _ => fail
      | _ => pose proof (not_empty_eqb s H)
      end
  end.

Ltac run :=
  known_strings; unfold_handler; cbn;
  repeat (match goal with
          | H : fault _ _ = _ |- _ => rewrite H
          | H : assoc _ _ = _ |- _ => rewrite H
          | H : users_by_clerk_id _ _ = _ |- _ => rewrite H
          | H : users_by_id _ _ = _ |- _ => rewrite H
          | H : posts_by_id _ _ = _ |- _ => rewrite H
          | H : comments_by_id _ _ = _ |- _ => rewrite H
          | H : follows_of _ _ _ = _ |- _ => rewrite H
          | H : (_ =? _) = _ |- _ => rewrite H
          | H : image_field _ = _ |- _ => rewrite H
          | H : caption_field _ = _ |- _ => rewrite H
          end; cbn).

Lemma filter_idem {A} (f : A -> bool) (l : list A) : filter f (filter f l) = filter f l.
Proof.
  induction l as [|a l IH]; simpl; [reflexivity|].
  destruct (f a) eqn:E; simpl; [rewrite E|]; now rewrite IH.
Qed.

Lemma filter_negb_none {A} (f : A -> bool) (l : list A) :
  filter f (filter (fun x => negb (f x)) l) = [].
Proof.
  induction l as [|a l IH]; simpl; [reflexivity|].
  destruct (f a) eqn:E; simpl; [|rewrite E]; exact IH.
Qed.

(** C7.  Removing a like succeeds with "Like removed" whether or not a row for
    (post, requester) is stored; afterwards no such row is left, the other
    likes are kept, and removing again gives the same answer and the same
    store. *)
Theorem unlike_is_idempotent :
  forall env clerk fields p u db,
    assoc "post_id" fields = JsString p -> p <> "" ->
    signed_in clerk u db ->
    fault env CurrentUser = None -> fault env LikeDelete = None ->
    exists db1,
      Likes.DELETE env (json_request clerk fields) db
        = (json (SuccessBody "Like removed") None, db1)
      /\ likes_of p (User.id u) db1 = []
      /\ (forall l, In l (likes db) -> same_like p (User.id u) l = false -> In l (likes db1))
      /\ users db1 = users db /\ posts db1 = posts db /\ comments db1 = comments db
      /\ Likes.DELETE env (json_request clerk fields) db1
           = (json (SuccessBody "Like removed") None, db1).
Proof.
  intros env clerk fields p u db Hf Hp [Hc Hu] F1 F2.
  exists (set_likes db (filter (fun l => negb (same_like p (User.id u) l)) (likes db))).
  assert (forall d, users_by_clerk_id clerk d = [u] ->
            Likes.DELETE env (json_request clerk fields) d
            = (json (SuccessBody "Like removed") None,
               set_likes d (filter (fun l => negb (same_like p (User.id u) l)) (likes d)))) as Hrun.
  { intros d Hd. unfold Likes.DELETE. run. reflexivity. }
  repeat split.
  - now apply Hrun.
  - unfold likes_of. cbn. apply filter_negb_none.
  - intros l Hin Hl. cbn. apply filter_In. split; [exact Hin | now rewrite Hl].
  - rewrite Hrun by exact Hu. unfold set_likes. cbn. now rewrite filter_idem.
Qed.

Lemma unlike_is_idempotent_witness :
  exists db1,
    Likes.DELETE Sample.env (json_request "clerk_bob" [("post_id", JsString "p2")]) Sample.db
      = (json (SuccessBody "Like removed") None, db1)
    /\ likes_of "p2" "u-bob" db1 = [].
Proof.
  destruct (unlike_is_idempotent Sample.env "clerk_bob" [("post_id", JsString "p2")]
              "p2" Sample.bob Sample.db) as (db1 & H1 & H2 & _);
    try reflexivity; try discriminate.
  - split; [discriminate | reflexivity].
  - exists db1. split; assumption.
Defined.

(** C8.  A follow request whose [following_id] is the requester's own user id
    answers 400 "Cannot follow yourself" and writes nothing. *)
Theorem self_follow_rejected :
  forall env clerk fields u db,
    assoc "following_id" fields = JsString (User.id u) -> User.id u <> "" ->
    signed_in clerk u db ->
    fault env CurrentUser = None ->
    Follows.POST env (json_request clerk fields) db
      = (error_json "Cannot follow yourself" 400, db).
Proof.
  intros env clerk fields u db Hf Hid [Hc Hu] F1.
  unfold Follows.POST. run. rewrite String.eqb_refl. reflexivity.
Qed.

Lemma self_follow_rejected_witness :
  Follows.POST Sample.env (json_request "clerk_ann" [("following_id", JsString "u-ann")]) Sample.db
    = (error_json "Cannot follow yourself" 400, Sample.db).
Proof.
  apply (self_follow_rejected Sample.env "clerk_ann" [("following_id", JsString "u-ann")]
           Sample.ann Sample.db); try reflexivity; try discriminate.
  split; [discriminate | reflexivity].
Defined.

(** A branch that answered with an error and left the store alone cannot be a
    success or a change. *)
Ltac refused H Hsucc :=
  inversion H; subst; clear H;
  destruct Hsucc as [Hsucc | Hsucc]; [discriminate Hsucc | now contradiction Hsucc].

Lemma post_delete_needs_owner env req db r db' :
  PostById.DELETE env req db = (r, db') ->
  status r = 200%nat \/ db' <> db ->
  exists clerk u post,
    post_session req = Some clerk
    /\ users_by_clerk_id clerk db = [u]
    /\ posts_by_id (postId req) db = [post]
    /\ Post.user_id post = User.id u.
Proof.
  intros Hrun Hsucc. unfold PostById.DELETE in Hrun. unfold_handler.
  destruct (post_session req) as [clerk|] eqn:Hs; cbn in Hrun; [|refused Hrun Hsucc].
  destruct (clerk =? "") eqn:Hc; cbn in Hrun; [refused Hrun Hsucc|].
  destruct (postId req =? "") eqn:Hid; cbn in Hrun; [refused Hrun Hsucc|].
  destruct (fault env CurrentUser); cbn in Hrun; [refused Hrun Hsucc|].
  destruct (users_by_clerk_id clerk db) as [|u [|]] eqn:Hu; cbn in Hrun;
    try refused Hrun Hsucc.
  destruct (fault env PostLookup); cbn in Hrun; [refused Hrun Hsucc|].
  destruct (posts_by_id (postId req) db) as [|post [|]] eqn:Hp; cbn in Hrun;
    try refused Hrun Hsucc.
  destruct (Post.user_id post =? User.id u) eqn:Ho; cbn in Hrun; [|refused Hrun Hsucc].
  exists clerk, u, post. repeat split; try assumption. now apply String.eqb_eq.
Qed.

Lemma comment_delete_needs_owner env req db r db' :
  Comments.DELETE env req db = (r, db') ->
  status r = 200%nat \/ db' <> db ->
  exists clerk fields id u comment,
    session req = Some clerk
    /\ json_body req = Some (JsObject fields)
    /\ assoc "comment_id" fields = JsString id
    /\ users_by_clerk_id clerk db = [u]
    /\ comments_by_id id db = [comment]
    /\ Comment.user_id comment = User.id u.
Proof.
  intros Hrun Hsucc. unfold Comments.DELETE in Hrun. unfold_handler.
  destruct (session req) as [clerk|] eqn:Hs; cbn in Hrun; [|refused Hrun Hsucc].
  destruct (clerk =? "") eqn:Hc; cbn in Hrun; [refused Hrun Hsucc|].
  destruct (json_body req) as [[| | | | | |fields]|] eqn:Hb; cbn in Hrun;
    try refused Hrun Hsucc.
  destruct (assoc "comment_id" fields) as [| | | |id| |] eqn:Hf; cbn in Hrun;
    try refused Hrun Hsucc.
  - destruct b; cbn in Hrun; refused Hrun Hsucc.
  - destruct (z =? 0)%Z; cbn in Hrun; refused Hrun Hsucc.
  - destruct (id =? "") eqn:Hid; cbn in Hrun; [refused Hrun Hsucc|].
    destruct (fault env CurrentUser); cbn in Hrun; [refused Hrun Hsucc|].
    destruct (users_by_clerk_id clerk db) as [|u [|]] eqn:Hu; cbn in Hrun;
      try refused Hrun Hsucc.
    destruct (fault env CommentLookup); cbn in Hrun; [refused Hrun Hsucc|].
    destruct (comments_by_id id db) as [|comment [|]] eqn:Hcm; cbn in Hrun;
      try refused Hrun Hsucc.
    destruct (Comment.user_id comment =? User.id u) eqn:Ho; cbn in Hrun;
      [|refused Hrun Hsucc].
    exists clerk, fields, id, u, comment. repeat split; try assumption.
    now apply String.eqb_eq.
Qed.

(** C4.  A requester who is resolved to a user other than the owner of the
    targeted post or comment gets 403 Forbidden and the store, rows and
    stored objects alike, is left as it is; and whenever a delete request for
    a post or a comment succeeds or changes the store at all, the requester's
    user id equals the owner field of the targeted row. *)
Theorem only_owner_deletes :
  forall env db,
    (forall clerk u id post,
        signed_in clerk u db -> fault env CurrentUser = None ->
        id <> "" -> fault env PostLookup = None ->
        posts_by_id id db = [post] -> Post.user_id post <> User.id u ->
        PostById.DELETE env (mkPostRequest (Some clerk) id) db
          = (error_json "Forbidden: You can only delete your own posts" 403, db))
    /\ (forall clerk u fields id comment,
          signed_in clerk u db -> fault env CurrentUser = None ->
          assoc "comment_id" fields = JsString id -> id <> "" ->
          fault env CommentLookup = None ->
          comments_by_id id db = [comment] -> Comment.user_id comment <> User.id u ->
          Comments.DELETE env (json_request clerk fields) db
            = (error_json "Forbidden: You can only delete your own comments" 403, db))
    /\ (forall req r db',
          PostById.DELETE env req db = (r, db') ->
          status r = 200%nat \/ db' <> db ->
          exists clerk u post,
            post_session req = Some clerk
            /\ users_by_clerk_id clerk db = [u]
            /\ posts_by_id (postId req) db = [post]
            /\ Post.user_id post = User.id u)
    /\ (forall req r db',
          Comments.DELETE env req db = (r, db') ->
          status r = 200%nat \/ db' <> db ->
          exists clerk fields id u comment,
            session req = Some clerk
            /\ json_body req = Some (JsObject fields)
            /\ assoc "comment_id" fields = JsString id
            /\ users_by_clerk_id clerk db = [u]
            /\ comments_by_id id db = [comment]
            /\ Comment.user_id comment = User.id u).
Proof.
  intros env db. split; [|split; [|split]].
  - intros clerk u id post [Hc Hu] F1 Hid F2 Hp Hne.
    apply String.eqb_neq in Hne.
    unfold PostById.DELETE. run. reflexivity.
  - intros clerk u fields id comment [Hc Hu] F1 Hf Hid F2 Hcm Hne.
    apply String.eqb_neq in Hne.
    unfold Comments.DELETE. run. reflexivity.
  - intros req r db'. apply post_delete_needs_owner.
  - intros req r db'. apply comment_delete_needs_owner.
Qed.

Lemma only_owner_deletes_witness :
  PostById.DELETE Sample.env (mkPostRequest (Some "clerk_ann") "p2") Sample.db
    = (error_json "Forbidden: You can only delete your own posts" 403, Sample.db)
  /\ Comments.DELETE Sample.env (json_request "clerk_ann" [("comment_id", JsString "c1")]) Sample.db
    = (error_json "Forbidden: You can only delete your own comments" 403, Sample.db).
Proof.
  destruct (only_owner_deletes Sample.env Sample.db) as (Hpost & Hcomment & _).
  split.
  - apply (Hpost "clerk_ann" Sample.ann "p2" Sample.p2);
      try reflexivity; try discriminate.
    split; [discriminate | reflexivity].
  - apply (Hcomment "clerk_ann" Sample.ann [("comment_id", JsString "c1")] "c1" Sample.c1);
      try reflexivity; try discriminate.
    split; [discriminate | reflexivity].
Defined.

(** *** The checks of the create handler on an accepted form *)

Lemma size_within_limit f :
  (File.size f <= MAX_FILE_SIZE)%Z -> size_exceeds (Some (FileEntry f)) MAX_FILE_SIZE = false.
Proof. intro H. unfold size_exceeds. now apply Z.ltb_ge. Qed.

Lemma size_over_limit f :
  (MAX_FILE_SIZE < File.size f)%Z -> size_exceeds (Some (FileEntry f)) MAX_FILE_SIZE = true.
Proof. intro H. unfold size_exceeds. now apply Z.ltb_lt. Qed.

Lemma type_in_allow_list f :
  In (File.type f) ALLOWED_MIME_TYPES ->
  type_allowed ALLOWED_MIME_TYPES (Some (FileEntry f)) = true.
Proof.
  intro H. unfold type_allowed. apply existsb_exists.
  exists (File.type f). split; [exact H | apply String.eqb_refl].
Qed.

Lemma type_off_allow_list f :
  ~ In (File.type f) ALLOWED_MIME_TYPES ->
  type_allowed ALLOWED_MIME_TYPES (Some (FileEntry f)) = false.
Proof.
  intro H. unfold type_allowed.
  destruct (existsb (String.eqb (File.type f)) ALLOWED_MIME_TYPES) eqn:E; [|reflexivity].
  apply existsb_exists in E as (t & Hin & Heq). apply String.eqb_eq in Heq. now subst.
Qed.

Lemma caption_within_limit t :
  (length t <= MAX_CAPTION_LENGTH)%nat -> (MAX_CAPTION_LENGTH <? length t)%nat = false.
Proof. intro H. now apply Nat.ltb_ge. Qed.

Lemma caption_over_limit t :
  (MAX_CAPTION_LENGTH < length t)%nat -> (MAX_CAPTION_LENGTH <? length t)%nat = true.
Proof. intro H. now apply Nat.ltb_lt. Qed.

Arguments size_exceeds : simpl never.
Arguments type_allowed : simpl never.
Arguments Nat.ltb : simpl never.
Arguments MAX_CAPTION_LENGTH : simpl never.
Arguments MAX_FILE_SIZE : simpl never.
Arguments last_segment : simpl never.
Arguments String.append : simpl never.
Arguments String.length : simpl never.

(** The create handler on an accepted form of a signed-in requester, from the
    lookup of the requester on. *)
Lemma create_passes_checks env clerk fd f text db :
  clerk <> "" -> accepted_form fd f text ->
  Posts.POST env (mkCreateRequest (Some clerk) (Some fd)) db =
  try_catch (
    currentUser <- current_user env clerk ;;
    let filePath := upload_path env clerk f in
    upload <- query env StorageUpload (storage_upload filePath) ;;
    match error upload with
    | Some uploadError =>
        respond (json (ErrorBody "Failed to upload image" (Some (message uploadError))) (Some 500%nat))
    | None =>
        uploadData <- deref upload ;;
        let imageUrl := getPublicUrl env filePath in
        post <- query env PostInsert (insert_post env (User.id currentUser) imageUrl text) ;;
        match error post with
        | Some postError =>
            catch_ignore (remove_object env filePath) ;;;
            respond (json (ErrorBody "Failed to create post" (Some (message postError))) (Some 500%nat))
        | None =>
            post <- deref post ;;
            ret (json (PostCreatedBody post) None)
        end
    end) db.
Proof.
  intros Hc (Himg & Hsize & Htype & Hcap).
  apply not_empty_eqb in Hc.
  unfold Posts.POST, try_catch, bind at 1 2 3 4 5 6 7, return_if, request_form.
  cbn [create_session form no_session session_id]. rewrite Hc.
  unfold ret at 1 2. cbn beta iota. rewrite Himg.
  cbn [entry_truthy negb]. unfold ret at 1. cbn beta iota.
  rewrite (size_within_limit f Hsize). unfold ret at 1. cbn beta iota.
  rewrite (type_in_allow_list f Htype). cbn [negb]. unfold ret at 1. cbn beta iota.
  destruct Hcap as [[Hcap Ht] | (s & Hcap & Hlen & Ht)]; rewrite Hcap, Ht;
    unfold caption_text.
  - unfold ret at 1 2. cbn beta iota.
    unfold bind, as_file, upload_path. destruct (current_user env clerk db) as [[u| |] d];
      reflexivity.
  - destruct (trim s) as [|c t] eqn:Etrim.
    + unfold ret at 1 2. cbn beta iota.
      unfold bind, as_file, upload_path. destruct (current_user env clerk db) as [[u| |] d];
        reflexivity.
    + unfold ret at 1. cbn beta iota. rewrite (caption_within_limit _ Hlen).
      unfold ret at 1. cbn beta iota.
      unfold bind, as_file, upload_path. destruct (current_user env clerk db) as [[u| |] d];
        reflexivity.
Qed.

Lemma trim_not_empty c : trim c <> "" -> c <> "" /\ (length (trim c) =? 0)%nat = false.
Proof.
  intro H. split.
  - intro E. subst c. now apply H.
  - destruct (trim c); [now contradiction H | reflexivity].
Qed.

(** The requester lookup when the subject has no row: 404, with or without a
    backend failure at that call. *)
Lemma unknown_subject A env clerk db (k : User.t -> Handler A) :
  users_by_clerk_id clerk db = [] ->
  bind (current_user env clerk) k db = (Return (error_json "User not found" 404), db).
Proof.
  intro Hu. unfold_handler. destruct (fault env CurrentUser); cbn; [reflexivity|].
  now rewrite Hu.
Qed.

(** C10.  When the session's subject has no row in the users table, each of
    the handlers that resolve the requester (list and create posts, add and
    remove a like, create and delete a comment, add and remove a follow)
    answers 404 "User not found" to a request that passes its input checks,
    and leaves the store, the users table included, as it is. *)
Theorem unknown_subject_is_not_found :
  forall env clerk db,
    clerk <> "" -> users_by_clerk_id clerk db = [] ->
    (forall limit offset userId,
        Posts.GET env (mkListRequest (Some clerk) limit offset userId) db
          = (error_json "User not found" 404, db))
    /\ (forall fd f text,
          accepted_form fd f text ->
          Posts.POST env (mkCreateRequest (Some clerk) (Some fd)) db
            = (error_json "User not found" 404, db))
    /\ (forall fields p,
          assoc "post_id" fields = JsString p -> p <> "" ->
          Likes.POST env (json_request clerk fields) db = (error_json "User not found" 404, db)
          /\ Likes.DELETE env (json_request clerk fields) db
               = (error_json "User not found" 404, db))
    /\ (forall fields p c,
          assoc "post_id" fields = JsString p -> p <> "" ->
          assoc "content" fields = JsString c -> trim c <> "" ->
          Comments.POST env (json_request clerk fields) db
            = (error_json "User not found" 404, db))
    /\ (forall fields id,
          assoc "comment_id" fields = JsString id -> id <> "" ->
          Comments.DELETE env (json_request clerk fields) db
            = (error_json "User not found" 404, db))
    /\ (forall fields id,
          assoc "following_id" fields = JsString id -> id <> "" ->
          Follows.POST env (json_request clerk fields) db
            = (error_json "User not found" 404, db)
          /\ Follows.DELETE env (json_request clerk fields) db
               = (error_json "User not found" 404, db)).
Proof.
  intros env clerk db Hc Hu.
  repeat split.
  - intros limit offset userId. unfold Posts.GET.
    run; destruct (fault env CurrentUser); run; reflexivity.
  - intros fd f text Hform. rewrite (create_passes_checks env clerk fd f text db Hc Hform).
    run; destruct (fault env CurrentUser); run; reflexivity.
  - unfold Likes.POST. run; destruct (fault env CurrentUser); run; reflexivity.
  - unfold Likes.DELETE. run; destruct (fault env CurrentUser); run; reflexivity.
  - intros fields p c Hp Hpne Hcont Htrim.
    destruct (trim_not_empty c Htrim) as [Hcne Hlen].
    unfold Comments.POST. run. rewrite Hlen.
    run; destruct (fault env CurrentUser); run; reflexivity.
  - intros fields id Hf Hid.
    unfold Comments.DELETE. run; destruct (fault env CurrentUser); run; reflexivity.
  - unfold Follows.POST. run; destruct (fault env CurrentUser); run; reflexivity.
  - unfold Follows.DELETE. run; destruct (fault env CurrentUser); run; reflexivity.
Qed.

Lemma unknown_subject_is_not_found_witness :
  Posts.GET Sample.env (mkListRequest (Some "clerk_zed") None None None) Sample.db
    = (error_json "User not found" 404, Sample.db)
  /\ Posts.POST Sample.env
       (mkCreateRequest (Some "clerk_zed")
          (Some (mkFormData (Some (FileEntry (Sample.jpeg 1024))) None))) Sample.db
     = (error_json "User not found" 404, Sample.db)
  /\ Follows.POST Sample.env (json_request "clerk_zed" [("following_id", JsString "u-bob")])
       Sample.db
     = (error_json "User not found" 404, Sample.db).
Proof.
  destruct (unknown_subject_is_not_found Sample.env "clerk_zed" Sample.db)
    as (Hlist & Hcreate & _ & _ & _ & Hfollow); [discriminate | reflexivity |].
  split; [apply Hlist | split].
  - apply (Hcreate (mkFormData (Some (FileEntry (Sample.jpeg 1024))) None)
             (Sample.jpeg 1024) None).
    repeat split; [discriminate | now left | now left].
  - apply (Hfollow [("following_id", JsString "u-bob")] "u-bob");
      [reflexivity | discriminate].
Defined.

Lemma size_message :
  ("File size exceeds " ++ to_string (Z.to_nat (MAX_FILE_SIZE / 1024 / 1024)) ++ "MB limit")%string
  = "File size exceeds 5MB limit".
Proof. reflexivity. Qed.

Lemma caption_message :
  ("Caption exceeds " ++ to_string MAX_CAPTION_LENGTH ++ " characters")%string
  = "Caption exceeds 2200 characters".
Proof. reflexivity. Qed.

(** The create handler on a signed-in request, up to the checks on the
    image. *)
Lemma create_checks_image env clerk fd db :
  clerk <> "" ->
  Posts.POST env (mkCreateRequest (Some clerk) (Some fd)) db =
    if negb (entry_truthy (image_field fd)) then (error_json "Image is required" 400, db)
    else if size_exceeds (image_field fd) MAX_FILE_SIZE then
      (error_json "File size exceeds 5MB limit" 400, db)
    else if negb (type_allowed ALLOWED_MIME_TYPES (image_field fd)) then
      (error_json "Invalid file type. Only JPEG, PNG, WebP, and GIF are allowed" 400, db)
    else
      match caption_field fd with
      | Some (TextEntry s) =>
          if (MAX_CAPTION_LENGTH <? length (trim s))%nat then
            (error_json "Caption exceeds 2200 characters" 400, db)
          else Posts.POST env (mkCreateRequest (Some clerk) (Some fd)) db
      | _ => Posts.POST env (mkCreateRequest (Some clerk) (Some fd)) db
      end.
Proof.
  intro Hc. apply not_empty_eqb in Hc.
  destruct (entry_truthy (image_field fd)) eqn:E1; cbn [negb].
  2:{ unfold Posts.POST. unfold_handler. cbn. rewrite Hc. cbn. rewrite E1. reflexivity. }
  destruct (size_exceeds (image_field fd) MAX_FILE_SIZE) eqn:E2.
  { unfold Posts.POST. unfold_handler. cbn. rewrite Hc. cbn. rewrite E1. cbn. rewrite E2.
    cbn. now rewrite size_message. }
  destruct (type_allowed ALLOWED_MIME_TYPES (image_field fd)) eqn:E3; cbn [negb].
  2:{ unfold Posts.POST. unfold_handler. cbn. rewrite Hc. cbn. rewrite E1. cbn. rewrite E2.
      cbn. rewrite E3. reflexivity. }
  destruct (caption_field fd) as [[file|s]|] eqn:E4; try reflexivity.
  destruct (MAX_CAPTION_LENGTH <? length (trim s))%nat eqn:E5; [|reflexivity].
  unfold Posts.POST. unfold_handler. cbn. rewrite Hc. cbn. rewrite E1. cbn. rewrite E2.
  cbn. rewrite E3. cbn. rewrite E4. unfold caption_text.
  destruct (trim s) as [|c t] eqn:E6.
  - vm_compute in E5. discriminate E5.
  - cbn. rewrite E5. cbn. now rewrite caption_message.
Qed.

(** C5.  On a signed-in create request the handler answers 400 and stores
    nothing, neither an object nor a posts row, when the image is larger than
    5 MB (5 * 1024 * 1024 bytes; the message names the 5MB limit), when its
    MIME type is not one of image/jpeg, image/png, image/webp, image/gif
    ("Invalid file type..."), or when the trimmed caption is longer than 2200
    characters. *)
Theorem invalid_upload_rejected :
  forall env clerk fd db,
    clerk <> "" ->
    (forall f,
        image_field fd = Some (FileEntry f) -> (5 * 1024 * 1024 < File.size f)%Z ->
        Posts.POST env (mkCreateRequest (Some clerk) (Some fd)) db
          = (error_json "File size exceeds 5MB limit" 400, db))
    /\ (forall f,
          image_field fd = Some (FileEntry f) -> (File.size f <= 5 * 1024 * 1024)%Z ->
          ~ In (File.type f) ["image/jpeg"; "image/png"; "image/webp"; "image/gif"] ->
          Posts.POST env (mkCreateRequest (Some clerk) (Some fd)) db
            = (error_json "Invalid file type. Only JPEG, PNG, WebP, and GIF are allowed" 400, db))
    /\ (forall f s,
          image_field fd = Some (FileEntry f) -> (File.size f <= 5 * 1024 * 1024)%Z ->
          In (File.type f) ["image/jpeg"; "image/png"; "image/webp"; "image/gif"] ->
          caption_field fd = Some (TextEntry s) -> (2200 < length (trim s))%nat ->
          Posts.POST env (mkCreateRequest (Some clerk) (Some fd)) db
            = (error_json "Caption exceeds 2200 characters" 400, db))
    /\ ((exists f, image_field fd = Some (FileEntry f)
                   /\ ((5 * 1024 * 1024 < File.size f)%Z
                       \/ ~ In (File.type f) ["image/jpeg"; "image/png"; "image/webp"; "image/gif"]))
        \/ (exists s, caption_field fd = Some (TextEntry s) /\ (2200 < length (trim s))%nat) ->
        exists msg,
          Posts.POST env (mkCreateRequest (Some clerk) (Some fd)) db = (error_json msg 400, db)).
Proof.
  intros env clerk fd db Hc.
  pose proof (create_checks_image env clerk fd db Hc) as Hrun.
  split; [|split; [|split]].
  - intros f Himg Hsize. rewrite Hrun, Himg. cbn [entry_truthy negb].
    now rewrite (size_over_limit f Hsize).
  - intros f Himg Hsize Htype. rewrite Hrun, Himg. cbn [entry_truthy negb].
    now rewrite (size_within_limit f Hsize), (type_off_allow_list f Htype).
  - intros f s Himg Hsize Htype Hcap Hlen. rewrite Hrun, Himg, Hcap. cbn [entry_truthy negb].
    rewrite (size_within_limit f Hsize), (type_in_allow_list f Htype). cbn [negb].
    now rewrite (caption_over_limit _ Hlen).
  - intros Hbad. rewrite Hrun.
    destruct (negb (entry_truthy (image_field fd))); [eexists; reflexivity|].
    destruct (size_exceeds (image_field fd) MAX_FILE_SIZE) eqn:E2; [eexists; reflexivity|].
    destruct (negb (type_allowed ALLOWED_MIME_TYPES (image_field fd))) eqn:E3;
      [eexists; reflexivity|].
    apply negb_false_iff in E3.
    destruct Hbad as [(f & Himg & [Hsize | Htype]) | (s & Hcap & Hlen)].
    + rewrite Himg, (size_over_limit f Hsize) in E2. discriminate E2.
    + rewrite Himg, (type_off_allow_list f Htype) in E3. discriminate E3.
    + rewrite Hcap, (caption_over_limit _ Hlen). eexists; reflexivity.
Qed.

Lemma invalid_upload_rejected_witness :
  Posts.POST Sample.env
    (mkCreateRequest (Some "clerk_ann")
       (Some (mkFormData (Some (FileEntry (Sample.jpeg (6 * 1024 * 1024)))) None))) Sample.db
    = (error_json "File size exceeds 5MB limit" 400, Sample.db)
  /\ Posts.POST Sample.env
       (mkCreateRequest (Some "clerk_ann")
          (Some (mkFormData (Some (FileEntry (File.mk "notes.txt" 12 "text/plain"))) None)))
       Sample.db
     = (error_json "Invalid file type. Only JPEG, PNG, WebP, and GIF are allowed" 400, Sample.db).
Proof.
  split.
  - destruct (invalid_upload_rejected Sample.env "clerk_ann"
                (mkFormData (Some (FileEntry (Sample.jpeg (6 * 1024 * 1024)))) None) Sample.db)
      as (H & _); [discriminate|].
    apply (H (Sample.jpeg (6 * 1024 * 1024))); reflexivity.
  - destruct (invalid_upload_rejected Sample.env "clerk_ann"
                (mkFormData (Some (FileEntry (File.mk "notes.txt" 12 "text/plain"))) None)
                Sample.db) as (_ & H & _); [discriminate|].
    apply (H (File.mk "notes.txt" 12 "text/plain")).
    + reflexivity.
    + discriminate.
    + cbn. intros [E | [E | [E | [E | []]]]]; discriminate E.
Defined.

Lemma remove_absent (path : string) (l : list string) :
  existsb (String.eqb path) l = false ->
  filter (fun p => negb (p =? path)) l = l.
Proof.
  induction l as [|a l IH]; simpl; intro H; [reflexivity|].
  apply orb_false_iff in H as [Ha Hl].
  rewrite String.eqb_sym, Ha. simpl. now rewrite IH.
Qed.

(** C6.  When the requester is resolved, the form is accepted and the upload
    has succeeded, a failing insert of the posts row makes the handler try to
    remove the uploaded object and answer 500 "Failed to create post".  The
    answer does not depend on how the removal ends: if it works the bucket is
    back to what it was, if it fails (by an error or by a rejected promise)
    the object stays and nothing of that shows in the response.  No posts row
    is added. *)
Theorem failed_insert_is_compensated :
  forall env clerk u fd f text e db,
    signed_in clerk u db -> accepted_form fd f text ->
    fault env CurrentUser = None ->
    fault env StorageUpload = None ->
    existsb (String.eqb (upload_path env clerk f)) (bucket db) = false ->
    fault env PostInsert = Some e ->
    exists db',
      Posts.POST env (mkCreateRequest (Some clerk) (Some fd)) db
        = (json (ErrorBody "Failed to create post" (Some (message e))) (Some 500%nat), db')
      /\ posts db' = posts db
      /\ users db' = users db /\ likes db' = likes db /\ comments db' = comments db
      /\ bucket db' =
           if remove_rejects env then upload_path env clerk f :: bucket db
           else match fault env StorageRemove with
                | Some _ => upload_path env clerk f :: bucket db
                | None => bucket db
                end.
Proof.
  intros env clerk u fd f text e db [Hc Hu] Hform F1 F2 Hfree F3.
  rewrite (create_passes_checks env clerk fd f text db Hc Hform).
  unfold_handler. cbn. rewrite F1. cbn. rewrite Hu. cbn. rewrite F2. cbn.
  unfold storage_upload. rewrite Hfree. cbn. rewrite F3. cbn.
  destruct (remove_rejects env); cbn.
  - eexists. split; [reflexivity|]. cbn. repeat split.
  - unfold query. destruct (fault env StorageRemove); cbn.
    + eexists. split; [reflexivity|]. cbn. repeat split.
    + eexists. split; [reflexivity|]. cbn. rewrite String.eqb_refl. cbn.
      repeat split. now apply remove_absent.
Qed.

Lemma failed_insert_is_compensated_witness :
  exists db',
    Posts.POST (Sample.failing PostInsert foreign_key_violation)
      (mkCreateRequest (Some "clerk_ann")
         (Some (mkFormData (Some (FileEntry (Sample.jpeg 1024))) (Some (TextEntry " sunset ")))))
      Sample.db
    = (json (ErrorBody "Failed to create post" (Some (message foreign_key_violation)))
            (Some 500%nat), db')
    /\ posts db' = posts Sample.db
    /\ bucket db' = bucket Sample.db.
Proof.
  destruct (failed_insert_is_compensated (Sample.failing PostInsert foreign_key_violation)
              "clerk_ann" Sample.ann
              (mkFormData (Some (FileEntry (Sample.jpeg 1024))) (Some (TextEntry " sunset ")))
              (Sample.jpeg 1024) (Some "sunset") foreign_key_violation Sample.db)
    as (db' & Hrun & Hposts & _ & _ & _ & Hbucket); try reflexivity.
  - split; [discriminate | reflexivity].
  - repeat split; [discriminate | now left |].
    right. exists " sunset ". repeat split. vm_compute. now apply Nat.leb_le.
  - exists db'. repeat split; assumption.
Defined.

(** *** Doubles with an integer value *)

Lemma to_double_exact z : (Z.abs z <= MAX_SAFE_INTEGER)%Z -> to_double z = Num z.
Proof.
  intro H. unfold MAX_SAFE_INTEGER in H. unfold to_double. cbv zeta.
  assert (Z.log2 (Z.abs z) < 53)%Z as Hlog.
  { destruct (Z.eq_dec (Z.abs z) 0) as [E | E]; [rewrite E; reflexivity|].
    apply Z.log2_lt_pow2; [lia|]. change (2 ^ 53)%Z with 9007199254740992%Z. lia. }
  destruct (Z.log2 (Z.abs z) - 52 <=? 0)%Z eqn:E; [reflexivity|].
  apply Z.leb_gt in E. lia.
Qed.

Lemma to_double_large z :
  (MAX_SAFE_INTEGER < z)%Z ->
  to_double z = Infinity false
  \/ exists m, to_double z = Num m /\ (MAX_SAFE_INTEGER < m)%Z.
Proof.
  intro H. unfold MAX_SAFE_INTEGER in *. unfold to_double. cbv zeta.
  assert ((z <? 0)%Z = false) as Hpos by (apply Z.ltb_ge; lia).
  rewrite Hpos, (Z.abs_eq z) by lia.
  destruct (Z.log2 z - 52 <=? 0)%Z eqn:E; [right; exists z; split; [reflexivity | exact H]|].
  apply Z.leb_gt in E.
  set (e := (Z.log2 z - 52)%Z) in *.
  assert (2 <= 2 ^ e)%Z as Hulp.
  { change 2%Z with (2 ^ 1)%Z at 1. apply Z.pow_le_mono_r; lia. }
  assert (2 ^ 52 * 2 ^ e <= z)%Z as Hlow.
  { rewrite <- Z.pow_add_r by lia. replace (52 + e)%Z with (Z.log2 z) by (unfold e; lia).
    apply Z.log2_spec. lia. }
  assert (2 ^ 52 <= z / 2 ^ e)%Z as Hq.
  { apply Z.div_le_lower_bound; [lia|]. rewrite Z.mul_comm. exact Hlow. }
  set (q := (z / 2 ^ e)%Z) in *.
  set (q' := if ((2 ^ e <? 2 * (z mod 2 ^ e))%Z
                 || ((2 * (z mod 2 ^ e) =? 2 ^ e)%Z && Z.odd q))%bool
             then (q + 1)%Z else q).
  assert (q <= q')%Z as Hq' by (unfold q'; destruct (_ || _)%bool; lia).
  destruct (2 ^ 1024 <=? q' * 2 ^ e)%Z; [now left|].
  right. exists (q' * 2 ^ e)%Z. split; [reflexivity|].
  change (2 ^ 52)%Z with 4503599627370496%Z in *. nia.
Qed.

(** From 2^53 + 1 on, an integer may only have a double next to it. *)
Lemma to_double_rounds :
  to_double (MAX_SAFE_INTEGER + 2) = Num (MAX_SAFE_INTEGER + 1)
  /\ to_double (MAX_SAFE_INTEGER + 4) = Num (MAX_SAFE_INTEGER + 5)
  /\ to_double (10 ^ 400) = Infinity false.
Proof. repeat split; vm_compute; reflexivity. Qed.

Lemma math_min_to_double n : (0 <= n)%Z -> math_min (to_double n) 50 = Num (Z.min n 50).
Proof.
  intro Hn. destruct (Z.le_gt_cases n MAX_SAFE_INTEGER) as [Hsafe | Hbig].
  - rewrite to_double_exact by lia. reflexivity.
  - assert (Z.min n 50 = 50%Z) as -> by (unfold MAX_SAFE_INTEGER in Hbig; lia).
    destruct (to_double_large n Hbig) as [-> | (m & -> & Hm)]; [reflexivity|].
    cbn [math_min]. f_equal. unfold MAX_SAFE_INTEGER in Hm. lia.
Qed.

Lemma js_add_exact o l :
  (0 <= o)%Z -> (0 <= l)%Z -> (o + l <= MAX_SAFE_INTEGER)%Z ->
  js_add (Num o) (Num l) = Num (o + l).
Proof. intros Ho Hl H. cbn [js_add]. apply to_double_exact. lia. Qed.

Lemma page_end_exact o l :
  (0 <= o)%Z -> (0 <= l)%Z -> (o + l <= MAX_SAFE_INTEGER)%Z ->
  js_sub (js_add (Num o) (Num l)) (Num 1) = Num (o + l - 1).
Proof.
  intros Ho Hl H. rewrite (js_add_exact o l Ho Hl H). cbn [js_sub].
  apply to_double_exact. unfold MAX_SAFE_INTEGER in *. lia.
Qed.

Lemma page_end_inv o lim t :
  js_sub (js_add (Num o) lim) (Num 1) = Num t -> exists l, lim = Num l.
Proof.
  destruct lim as [|l|s]; cbn [js_add js_sub]; intro H; [discriminate H | eauto | discriminate H].
Qed.

Arguments to_double : simpl never.

(** *** The list handler *)

Lemma range_offset_limit {A} (o l : Z) (rows : list A) :
  range (Num o) (Num (o + l - 1)%Z) rows =
    if (o <? 0)%Z || (l <? 0)%Z then failed bad_range
    else ok (firstn (Z.to_nat l) (skipn (Z.to_nat o) rows)).
Proof.
  unfold range. replace (o + l - 1 - o + 1)%Z with l by lia. reflexivity.
Qed.

(** A range query that is answered is one between two finite numbers. *)
Lemma range_inv {A} (from to : number) (rows : list A) :
  error (range from to rows) = None ->
  exists o t,
    from = Num o /\ to = Num t /\ (0 <= o)%Z
    /\ range from to rows = ok (firstn (Z.to_nat (t - o + 1)) (skipn (Z.to_nat o) rows)).
Proof.
  unfold range. destruct from as [|o|s]; try discriminate.
  destruct to as [|t|s]; try discriminate.
  destruct ((o <? 0)%Z || (t - o + 1 <? 0)%Z)%bool eqn:E; [discriminate|].
  intros _. apply orb_false_iff in E as [E _]. apply Z.ltb_ge in E.
  exists o, t. repeat split. exact E.
Qed.

Arguments range : simpl never.
Arguments Z.min : simpl never.
Arguments or_default : simpl never.
Arguments nodup : simpl never.

(** Every list response is a page of the ordered view, cut from the parsed
    offset on, with [has_more] and [next_offset] computed from the parsed
    offset and limit; the page has limit many rows at most where the handler's
    arithmetic is exact. *)
Lemma list_response_inv env req db data has_more next_offset :
  body (fst (Posts.GET env req db)) = PostListBody data has_more next_offset ->
  exists clerk u o l count usersMap liked,
    list_session req = Some clerk /\ clerk <> "" /\ users_by_clerk_id clerk db = [u]
    /\ page_offset req = Num o /\ page_limit req = Num l /\ (0 <= o)%Z
    /\ data = map (Posts.format_post usersMap liked)
                  (firstn count (skipn (Z.to_nat o) (feed_rows (userId_param req) db)))
    /\ ((0 <= l)%Z -> (o + l <= MAX_SAFE_INTEGER)%Z -> count = Z.to_nat l)
    /\ has_more = (Z.of_nat (List.length data) =? l)%Z
    /\ next_offset = if has_more then Some (js_add (Num o) (Num l)) else None.
Proof.
  intro H. unfold Posts.GET in H. unfold page_offset, page_limit. unfold_handler.
  destruct (list_session req) as [clerk|] eqn:Hs; cbn in H; [|discriminate H].
  destruct (clerk =? "") eqn:Hc; cbn in H; [discriminate H|].
  destruct (fault env CurrentUser); cbn in H; [discriminate H|].
  destruct (users_by_clerk_id clerk db) as [|u [|]] eqn:Hu; cbn in H; try discriminate H.
  destruct (fault env PostStatsRange); cbn in H; [discriminate H|].
  set (off := parseInt (or_default (offset_param req) "0")) in *.
  set (lim := math_min (parseInt (or_default (limit_param req) "10")) 50) in *.
  set (last := js_sub (js_add off lim) (Num 1)) in *.
  destruct (error (range off last (feed_rows (userId_param req) db))) eqn:Herr;
    cbn in H; [discriminate H|].
  destruct (range_inv _ _ _ Herr) as (o & t & Hoff & Hlast & Hpos & Hrange).
  rewrite Hrange in H. cbn in H. clear Herr Hrange.
  unfold last in Hlast. clear last. rewrite Hoff in Hlast, H.
  destruct (page_end_inv o lim t Hlast) as (l & Hlim).
  rewrite Hlim in Hlast, H. cbn in H.
  set (rows := firstn (Z.to_nat (t - o + 1))
                 (skipn (Z.to_nat o) (feed_rows (userId_param req) db))) in *.
  assert (clerk <> "") as Hne by now apply String.eqb_neq.
  assert ((0 <= l)%Z -> (o + l <= MAX_SAFE_INTEGER)%Z -> Z.to_nat (t - o + 1) = Z.to_nat l)
    as Hcount.
  { intros Hl Hsafe. rewrite (page_end_exact o l Hpos Hl Hsafe) in Hlast.
    injection Hlast as <-. f_equal. lia. }
  destruct (is_empty (nodup string_dec (map PostStats.user_id rows)));
    destruct (is_empty (map PostStats.post_id rows));
    cbn in H;
    repeat match type of H with
           | context [fault env ?s] => destruct (fault env s); cbn in H
           end;
    match type of H with
    | PostListBody (map (Posts.format_post ?um ?lk) _) _ _ = _ =>
        injection H as <- <- <-;
        exists clerk, u, o, l, (Z.to_nat (t - o + 1)), um, lk;
        repeat split; try assumption; reflexivity
    end.
Qed.

(** *** [parseInt] reads back a decimal numeral *)

Lemma digits_step radix c rest acc d :
  digit_of radix c = Some d ->
  digits radix (String c rest) acc
  = digits radix rest (Some (radix * match acc with Some a => a | None => 0 end + d)%Z).
Proof. intro H. simpl. now rewrite H. Qed.

Lemma digits_decimal d a :
  digits 10 (NilEmpty.string_of_uint d) (Some (Z.of_nat a))
  = Some (Z.of_nat (Nat.of_uint_acc d a)).
Proof.
  revert a. induction d; intro a; cbn [NilEmpty.string_of_uint Nat.of_uint_acc];
    [reflexivity | ..];
    (erewrite digits_step by (vm_compute; reflexivity));
    rewrite <- IHd; do 2 f_equal; rewrite Nat.tail_mul_spec; lia.
Qed.

Lemma to_uint_not_nil n : Nat.to_uint n <> Decimal.Nil.
Proof.
  pose proof (DecimalNat.Unsigned.to_of (Nat.to_uint n)) as H.
  rewrite DecimalNat.Unsigned.of_to in H. rewrite H.
  unfold Decimal.unorm. destruct (Decimal.nzhead (Nat.to_uint n)); discriminate.
Qed.

Lemma digits_tail_value d a :
  match digits 10 (NilEmpty.string_of_uint d) (Some (Z.of_nat a)) with
  | Some n => to_double n
  | None => NaN
  end = to_double (Z.of_nat (Nat.of_uint_acc d a)).
Proof. now rewrite digits_decimal. Qed.

Lemma parseInt_decimal d :
  d <> Decimal.Nil ->
  parseInt (NilEmpty.string_of_uint d) = to_double (Z.of_nat (Nat.of_uint d)).
Proof.
  intro Hd. unfold Nat.of_uint.
  destruct d as [|d|d|d|d|d|d|d|d|d|d]; [now contradiction Hd | destruct d | ..];
    cbn [NilEmpty.string_of_uint Nat.of_uint_acc];
    try reflexivity;
    rewrite <- digits_tail_value;
    generalize (NilEmpty.string_of_uint d); intro rest;
    reflexivity.
Qed.

Lemma parseInt_to_string n : parseInt (to_string n) = to_double (Z.of_nat n).
Proof.
  unfold to_string. rewrite (parseInt_decimal _ (to_uint_not_nil n)).
  now rewrite DecimalNat.Unsigned.of_to.
Qed.

(** A signed-in request whose offset and limit are not negative and add up
    within the exact integers is answered with a page, and the store is not
    touched. *)
Lemma list_response_run env req db clerk u o l :
  list_session req = Some clerk -> signed_in clerk u db ->
  fault env CurrentUser = None -> fault env PostStatsRange = None ->
  page_offset req = Num o -> page_limit req = Num l -> (0 <= o)%Z -> (0 <= l)%Z ->
  (o + l <= MAX_SAFE_INTEGER)%Z ->
  exists usersMap liked,
    let data := map (Posts.format_post usersMap liked)
                    (firstn (Z.to_nat l) (skipn (Z.to_nat o) (feed_rows (userId_param req) db))) in
    Posts.GET env req db =
      (json (PostListBody data (Z.of_nat (List.length data) =? l)%Z
               (if (Z.of_nat (List.length data) =? l)%Z then Some (Num (o + l)) else None))
            None, db).
Proof.
  intros Hs [Hc Hu] F1 F2 Ho Hl Hopos Hlpos Hsafe.
  unfold page_offset in Ho. unfold page_limit in Hl.
  apply not_empty_eqb in Hc.
  unfold Posts.GET. unfold_handler. rewrite Hs. cbn. rewrite Hc. cbn. rewrite F1. cbn.
  rewrite Hu. cbn. rewrite F2. cbn. rewrite Ho, Hl.
  rewrite (page_end_exact o l Hopos Hlpos Hsafe), (js_add_exact o l Hopos Hlpos Hsafe).
  rewrite range_offset_limit.
  apply Z.ltb_ge in Hopos, Hlpos. rewrite Hopos, Hlpos. cbn.
  set (rows := firstn (Z.to_nat l) (skipn (Z.to_nat o) (feed_rows (userId_param req) db))).
  destruct (is_empty (nodup string_dec (map PostStats.user_id rows)));
    destruct (is_empty (map PostStats.post_id rows));
    cbn;
    repeat match goal with
           | |- context [fault env ?s] => destruct (fault env s); cbn
           end;
    do 2 eexists; reflexivity.
Qed.

Lemma to_string_not_empty n : exists c rest, to_string n = String c rest.
Proof.
  unfold to_string. pose proof (to_uint_not_nil n) as H.
  destruct (Nat.to_uint n); [now contradiction H | ..]; cbn; eauto.
Qed.

Lemma or_default_to_string n d : or_default (Some (to_string n)) d = to_string n.
Proof.
  destruct (to_string_not_empty n) as (c & rest & E). rewrite E. reflexivity.
Qed.

Lemma page_limit_of_string req n :
  limit_param req = Some (to_string n) -> page_limit req = Num (Z.min (Z.of_nat n) 50).
Proof.
  intro E. unfold page_limit. rewrite E, or_default_to_string, parseInt_to_string.
  apply math_min_to_double. lia.
Qed.

Lemma page_offset_of_string req n :
  offset_param req = Some (to_string n) -> page_offset req = to_double (Z.of_nat n).
Proof.
  intro E. unfold page_offset. now rewrite E, or_default_to_string, parseInt_to_string.
Qed.

Lemma format_post_id um lk rows :
  map PostWithUser.id (map (Posts.format_post um lk) rows) = map PostStats.post_id rows.
Proof. rewrite map_map. apply map_ext. reflexivity. Qed.

(** C3.  The page size of the list handler is the requested limit capped at
    50, 10 when none is given; the offset is the requested one as JavaScript
    reads it, the same integer up to 2^53 - 1, and 0 when none is given.  A
    signed-in request whose offset and limit are not negative and add up
    within that range is answered with a page.  In every page the handler
    answers with, the posts are consecutive rows of the ordered view from the
    offset on, [has_more] is true exactly when the number of posts equals the
    limit, and [next_offset] is the handler's offset + limit when [has_more]
    is true and absent otherwise; within the range the sum is the exact one
    and the page is cut at limit many rows. *)
Theorem list_page_shape :
  forall env req db,
    (limit_param req = None \/ limit_param req = Some "" -> page_limit req = Num 10)
    /\ (offset_param req = None \/ offset_param req = Some "" -> page_offset req = Num 0)
    /\ (forall n, limit_param req = Some (to_string n) ->
                  page_limit req = Num (Z.min (Z.of_nat n) 50))
    /\ (forall n, offset_param req = Some (to_string n) ->
                  page_offset req = to_double (Z.of_nat n)
                  /\ ((Z.of_nat n <= MAX_SAFE_INTEGER)%Z -> page_offset req = Num (Z.of_nat n)))
    /\ (forall clerk u o l,
          list_session req = Some clerk -> signed_in clerk u db ->
          fault env CurrentUser = None -> fault env PostStatsRange = None ->
          page_offset req = Num o -> page_limit req = Num l -> (0 <= o)%Z -> (0 <= l)%Z ->
          (o + l <= MAX_SAFE_INTEGER)%Z ->
          exists data has_more next_offset,
            Posts.GET env req db = (json (PostListBody data has_more next_offset) None, db))
    /\ (forall data has_more next_offset,
          body (fst (Posts.GET env req db)) = PostListBody data has_more next_offset ->
          exists o l count,
            page_offset req = Num o /\ page_limit req = Num l /\ (l <= 50)%Z
            /\ map PostWithUser.id data
               = map PostStats.post_id
                   (firstn count (skipn (Z.to_nat o) (feed_rows (userId_param req) db)))
            /\ (has_more = true <-> Z.of_nat (List.length data) = l)
            /\ (has_more = true -> next_offset = Some (js_add (Num o) (Num l)))
            /\ (has_more = false -> next_offset = None)
            /\ ((0 <= l)%Z -> (o + l <= MAX_SAFE_INTEGER)%Z ->
                count = Z.to_nat l /\ js_add (Num o) (Num l) = Num (o + l))).
Proof.
  intros env req db. split; [|split; [|split; [|split; [|split]]]].
  - unfold page_limit. intros [E | E]; rewrite E; reflexivity.
  - unfold page_offset. intros [E | E]; rewrite E; reflexivity.
  - intros n. apply page_limit_of_string.
  - intros n E. split; [now apply page_offset_of_string|].
    intro Hsafe. rewrite (page_offset_of_string req n E). apply to_double_exact. lia.
  - intros clerk u o l Hs Hu F1 F2 Ho Hl Hopos Hlpos Hsafe.
    destruct (list_response_run env req db clerk u o l Hs Hu F1 F2 Ho Hl Hopos Hlpos Hsafe)
      as (um & lk & Hrun).
    cbv zeta in Hrun. rewrite Hrun. eauto.
  - intros data has_more next_offset H.
    apply list_response_inv in H
      as (clerk & u & o & l & count & um & lk & _ & _ & _ & Ho & Hl & Hopos
          & Hdata & Hcount & Hmore & Hnext).
    exists o, l, count. repeat split; try assumption.
    + unfold page_limit in Hl.
      destruct (parseInt (or_default (limit_param req) "10")) as [|x|[|]];
        cbn in Hl; try discriminate Hl; injection Hl as <-; [apply Z.le_min_r | lia].
    + rewrite Hdata. apply format_post_id.
    + intro E. rewrite E in Hmore. symmetry in Hmore. now apply Z.eqb_eq.
    + intro E. rewrite Hmore. now apply Z.eqb_eq.
    + intro E. now rewrite Hnext, E.
    + intro E. now rewrite Hnext, E.
    + now apply Hcount.
    + now apply js_add_exact.
Qed.

Lemma list_page_shape_witness :
  page_limit (mkListRequest (Some "clerk_ann") (Some "80") None None) = Num 50
  /\ exists data has_more next_offset,
       Posts.GET Sample.env (mkListRequest (Some "clerk_ann") (Some "2") None None) Sample.db
         = (json (PostListBody data has_more next_offset) None, Sample.db).
Proof.
  split.
  - destruct (list_page_shape Sample.env (mkListRequest (Some "clerk_ann") (Some "80") None None)
                Sample.db) as (_ & _ & H & _).
    apply (H 80%nat). reflexivity.
  - destruct (list_page_shape Sample.env (mkListRequest (Some "clerk_ann") (Some "2") None None)
                Sample.db) as (_ & _ & _ & _ & H & _).
    apply (H "clerk_ann" Sample.ann 0%Z 2%Z); try reflexivity; try discriminate.
    split; [discriminate | reflexivity].
Defined.

(** *** The ordered view *)

Lemma insert_desc_perm r rows : Permutation (insert_desc r rows) (r :: rows).
Proof.
  induction rows as [|r' rest IH]; simpl; [apply Permutation_refl|].
  destruct (PostStats.created_at r' <=? PostStats.created_at r)%Z.
  - apply Permutation_refl.
  - apply Permutation_trans with (r' :: r :: rest).
    + now apply perm_skip.
    + apply perm_swap.
Qed.

Lemma order_perm rows : Permutation (order_by_created_at_desc rows) rows.
Proof.
  induction rows as [|r rest IH]; simpl; [apply perm_nil|].
  apply Permutation_trans with (r :: order_by_created_at_desc rest).
  - apply insert_desc_perm.
  - now apply perm_skip.
Qed.

Lemma insert_desc_head a r rows :
  HdRel newer_first a rows -> newer_first a r -> HdRel newer_first a (insert_desc r rows).
Proof.
  intros Hhd Har. destruct rows as [|r' rest]; simpl.
  - now constructor.
  - destruct (PostStats.created_at r' <=? PostStats.created_at r)%Z.
    + now constructor.
    + constructor. now apply HdRel_inv in Hhd.
Qed.

Lemma insert_desc_sorted r rows :
  Sorted newer_first rows -> Sorted newer_first (insert_desc r rows).
Proof.
  induction rows as [|r' rest IH]; simpl; intro Hs.
  - repeat constructor.
  - apply Sorted_inv in Hs as [Hrest Hhd].
    destruct (PostStats.created_at r' <=? PostStats.created_at r)%Z eqn:E.
    + constructor; [now constructor|]. constructor. unfold newer_first. now apply Z.leb_le.
    + constructor; [now apply IH|].
      apply insert_desc_head; [exact Hhd|].
      unfold newer_first. apply Z.leb_gt in E. lia.
Qed.

Lemma order_sorted rows : Sorted newer_first (order_by_created_at_desc rows).
Proof.
  induction rows as [|r rest IH]; simpl; [constructor|]. now apply insert_desc_sorted.
Qed.

Lemma feed_rows_from_posts userId db r :
  In r (feed_rows userId db) -> exists p, In p (posts db) /\ r = post_stats_row db p.
Proof.
  unfold feed_rows. intro H.
  apply (Permutation_in _ (order_perm _)) in H.
  assert (In r (post_stats db)) as Hin.
  { destruct userId as [[|c rest]|]; try exact H. now apply filter_In in H. }
  unfold post_stats in Hin. apply in_map_iff in Hin as (p & E & Hp). eauto.
Qed.

Lemma In_firstn_skipn {A} n m (l : list A) x : In x (firstn n (skipn m l)) -> In x l.
Proof.
  intro H. rewrite <- (firstn_skipn m l). apply in_or_app. right.
  rewrite <- (firstn_skipn n (skipn m l)). apply in_or_app. now left.
Qed.

(** *** The detail handler *)

Lemma detail_response_inv env req db detail :
  body (fst (PostById.GET env req db)) = PostDetailBody detail ->
  exists p,
    posts_by_id (postId req) db = [p]
    /\ PostWithUser.id detail = Post.id p
    /\ PostWithUser.created_at detail = Post.created_at p
    /\ PostWithUser.updated_at detail = Post.updated_at p.
Proof.
  intro H. unfold PostById.GET in H. unfold_handler.
  destruct (postId req =? ""); cbn in H; [discriminate H|].
  destruct (fault env PostStatsLookup); cbn in H; [discriminate H|].
  destruct (filter (fun r => PostStats.post_id r =? postId req) (post_stats db))
    as [|stats [|]]; cbn in H; try discriminate H.
  destruct (fault env PostLookup); cbn in H; [discriminate H|].
  destruct (posts_by_id (postId req) db) as [|p [|]] eqn:Hp; cbn in H; try discriminate H.
  destruct (fault env OwnerLookup); cbn in H; [discriminate H|].
  destruct (users_by_id (Post.user_id p) db) as [|owner [|]]; cbn in H; try discriminate H.
  exists p. split; [reflexivity|].
  destruct (no_session (post_session req)); cbn in H.
  - injection H as <-. repeat split.
  - destruct (fault env CurrentUser); cbn in H.
    + injection H as <-. repeat split.
    + destruct (users_by_clerk_id (session_id (post_session req)) db) as [|me [|]];
        cbn in H; try (injection H as <-; repeat split).
      destruct (fault env LikeLookup); cbn in H; injection H as <-; repeat split.
Qed.

(** C9.  In every list response each post's [updated_at] equals its
    [created_at], which is the stored [created_at] of the post with that id:
    the stored [updated_at] never reaches the list.  The detail response for a
    post carries the stored [updated_at] of that post. *)
Theorem list_hides_updated_at :
  forall env db,
    (forall req data has_more next_offset,
        body (fst (Posts.GET env req db)) = PostListBody data has_more next_offset ->
        Forall (fun item =>
                  PostWithUser.updated_at item = PostWithUser.created_at item
                  /\ exists p, In p (posts db)
                               /\ Post.id p = PostWithUser.id item
                               /\ PostWithUser.updated_at item = Post.created_at p) data)
    /\ (forall req detail,
          body (fst (PostById.GET env req db)) = PostDetailBody detail ->
          exists p,
            posts_by_id (postId req) db = [p]
            /\ PostWithUser.id detail = Post.id p
            /\ PostWithUser.created_at detail = Post.created_at p
            /\ PostWithUser.updated_at detail = Post.updated_at p).
Proof.
  intros env db. split.
  - intros req data has_more next_offset H.
    apply list_response_inv in H
      as (clerk & u & o & l & count & um & lk & _ & _ & _ & _ & _ & _ & Hdata & _).
    subst data. apply Forall_forall. intros item Hin.
    apply in_map_iff in Hin as (row & <- & Hrow).
    split; [reflexivity|].
    apply In_firstn_skipn, feed_rows_from_posts in Hrow as (p & Hp & ->).
    exists p. repeat split. exact Hp.
  - intros req detail. apply detail_response_inv.
Qed.

Lemma list_hides_updated_at_witness :
  Forall (fun item =>
            PostWithUser.updated_at item = PostWithUser.created_at item
            /\ exists p, In p (posts Sample.db)
                         /\ Post.id p = PostWithUser.id item
                         /\ PostWithUser.updated_at item = Post.created_at p)
         (page_of (fst (Posts.GET Sample.env (mkListRequest (Some "clerk_bob") None None None)
                          Sample.db)))
  /\ exists detail,
       body (fst (PostById.GET Sample.env (mkPostRequest (Some "clerk_bob") "p1") Sample.db))
         = PostDetailBody detail
       /\ PostWithUser.created_at detail = 10%Z
       /\ PostWithUser.updated_at detail = Post.updated_at Sample.p1.
Proof.
  destruct (list_hides_updated_at Sample.env Sample.db) as [Hlist Hdetail].
  split.
  - apply (Hlist (mkListRequest (Some "clerk_bob") None None None) _ false None).
    reflexivity.
  - edestruct (Hdetail (mkPostRequest (Some "clerk_bob") "p1")) as (p & Hp & _ & _ & Hupd);
      [reflexivity|].
    injection Hp as <-. eexists. split; [reflexivity|]. split; [reflexivity | exact Hupd].
Defined.

(** *** The pagination loop *)

(** One fetch of the feed at offset [off] with page size [limit]. *)
Lemma fetch_page env clerk u userId limit off db :
  signed_in clerk u db -> fault env CurrentUser = None -> fault env PostStatsRange = None ->
  (Z.of_nat off + 50 <= MAX_SAFE_INTEGER)%Z ->
  exists usersMap liked,
    let size := Nat.min limit 50 in
    let data := map (Posts.format_post usersMap liked)
                    (firstn size (skipn off (feed_rows userId db))) in
    Posts.GET env
      (mkListRequest (Some clerk) (Some (to_string limit)) (Some (to_string off)) userId) db
    = (json (PostListBody data (Z.of_nat (List.length data) =? Z.of_nat size)%Z
               (if (Z.of_nat (List.length data) =? Z.of_nat size)%Z
                then Some (Num (Z.of_nat off + Z.of_nat size)) else None))
            None, db).
Proof.
  intros Hu F1 F2 Hsafe.
  set (req := mkListRequest (Some clerk) (Some (to_string limit)) (Some (to_string off)) userId).
  pose proof (page_limit_of_string req limit eq_refl) as Hlimit.
  pose proof (page_offset_of_string req off eq_refl) as Hoffset.
  rewrite to_double_exact in Hoffset by lia.
  change 50%Z with (Z.of_nat 50) in Hlimit. rewrite <- Nat2Z.inj_min in Hlimit.
  assert (Z.of_nat off + Z.of_nat (Nat.min limit 50) <= MAX_SAFE_INTEGER)%Z as Hsum by lia.
  destruct (list_response_run env req db clerk u (Z.of_nat off) (Z.of_nat (Nat.min limit 50))
              eq_refl Hu F1 F2 Hoffset Hlimit (Nat2Z.is_nonneg _) (Nat2Z.is_nonneg _) Hsum)
    as (um & lk & Hrun).
  exists um, lk. cbv zeta in *. rewrite !Nat2Z.id in Hrun. exact Hrun.
Qed.

Lemma ceil_div_small a size : (0 < a <= size)%nat -> ceil_div a size = 1%nat.
Proof.
  intros [Ha Hs]. unfold ceil_div.
  replace (a + size - 1)%nat with ((a - 1) + 1 * size)%nat by lia.
  rewrite Nat.div_add by lia. rewrite Nat.div_small by lia. reflexivity.
Qed.

Lemma ceil_div_zero size : (0 < size)%nat -> ceil_div 0 size = 0%nat.
Proof. intro Hs. unfold ceil_div. apply Nat.div_small. lia. Qed.

Lemma ceil_div_add a size : (0 < size)%nat -> ceil_div (a + size) size = S (ceil_div a size).
Proof.
  intro Hs. unfold ceil_div.
  replace (a + size + size - 1)%nat with ((a + size - 1) + 1 * size)%nat by lia.
  rewrite Nat.div_add by lia. lia.
Qed.

Lemma div_sub_size a size : (0 < size <= a)%nat -> (a / size = S ((a - size) / size))%nat.
Proof.
  intros [Hs Ha]. replace a with ((a - size) + 1 * size)%nat at 1 by lia.
  rewrite Nat.div_add by lia. lia.
Qed.

Lemma ceil_div_floor n p :
  (0 < p)%nat -> ceil_div n p = (n / p + if (n mod p =? 0)%nat then 0 else 1)%nat.
Proof.
  intro Hp. unfold ceil_div.
  pose proof (Nat.div_mod_eq n p) as Hn.
  pose proof (Nat.mod_upper_bound n p ltac:(lia)) as Hr.
  destruct (n mod p =? 0)%nat eqn:E.
  - apply Nat.eqb_eq in E. symmetry. apply (Nat.div_unique _ _ _ (p - 1)); lia.
  - apply Nat.eqb_neq in E. symmetry. apply (Nat.div_unique _ _ _ (n mod p - 1)); lia.
Qed.

Lemma response_ok_200 b : PostFeed.response_ok (json b None) = true.
Proof. reflexivity. Qed.

(** The loop from offset [off]: with enough fuel it ends, after one fetch per
    full page and a last fetch that comes back short. *)
Lemma load_all_from env clerk u userId limit db :
  signed_in clerk u db -> fault env CurrentUser = None -> fault env PostStatsRange = None ->
  (1 <= limit)%nat ->
  forall fuel off,
    let size := Nat.min limit 50 in
    let rows := feed_rows userId db in
    (Z.of_nat (List.length rows) + 50 <= MAX_SAFE_INTEGER)%Z ->
    (off <= List.length rows)%nat ->
    ((List.length rows - off) / size + 1 <= fuel)%nat ->
    exists pages,
      PostFeed.load_all fuel env (Some clerk) userId limit off db = Some pages
      /\ List.length pages = ((List.length rows - off) / size + 1)%nat
      /\ List.concat (map (map PostWithUser.id) pages) = map PostStats.post_id (skipn off rows)
      /\ List.length (filter (fun page => negb (is_empty page)) pages)
         = ceil_div (List.length rows - off) size.
Proof.
  intros Hu F1 F2 Hlimit fuel. cbv zeta.
  set (size := Nat.min limit 50). set (rows := feed_rows userId db).
  assert (0 < size)%nat as Hsize by (unfold size; lia).
  induction fuel as [|fuel IH]; intros off Hsafe Hoff Hfuel; [lia|].
  assert (Z.of_nat off + 50 <= MAX_SAFE_INTEGER)%Z as Hfetch by lia.
  destruct (fetch_page env clerk u userId limit off db Hu F1 F2 Hfetch) as (um & lk & Hrun).
  cbv zeta in Hrun. fold size rows in Hrun.
  set (chunk := firstn size (skipn off rows)) in *.
  assert (List.length (map (Posts.format_post um lk) chunk)
          = Nat.min size (List.length rows - off)) as Hlen
    by (unfold chunk; now rewrite length_map, length_firstn, length_skipn).
  cbn [PostFeed.load_all]. rewrite Hrun. cbn [fst]. rewrite response_ok_200.
  cbn [body json]. rewrite Hlen.
  destruct (Nat.le_gt_cases size (List.length rows - off)) as [Hfull | Hshort].
  - (* a full page: the loop goes on *)
    rewrite Nat.min_l by exact Hfull. rewrite Z.eqb_refl.
    destruct (IH (off + size)%nat) as (pages & Hpages & Hcount & Hcat & Hnonempty).
    + exact Hsafe.
    + lia.
    + rewrite (div_sub_size (List.length rows - off) size) in Hfuel by lia.
      replace (List.length rows - (off + size))%nat
        with (List.length rows - off - size)%nat by lia. lia.
    + rewrite Hpages. cbn [option_map].
      exists (map (Posts.format_post um lk) chunk :: pages).
      replace (List.length rows - (off + size))%nat
        with (List.length rows - off - size)%nat in * by lia.
      split; [reflexivity|]. split; [|split].
      * cbn [List.length]. rewrite Hcount.
        rewrite (div_sub_size (List.length rows - off) size) by lia. lia.
      * cbn [map List.concat]. rewrite Hcat, format_post_id. unfold chunk.
        rewrite (Nat.add_comm off size), <- skipn_skipn, <- map_app.
        now rewrite firstn_skipn.
      * cbn [filter].
        assert (is_empty (map (Posts.format_post um lk) chunk) = false) as Hne.
        { destruct (map (Posts.format_post um lk) chunk); [|reflexivity].
          cbn in Hlen. lia. }
        rewrite Hne. cbn [negb List.length]. rewrite Hnonempty.
        replace (List.length rows - off)%nat
          with ((List.length rows - off - size) + size)%nat at 2 by lia.
        now rewrite ceil_div_add.
  - (* a short page: the loop stops *)
    rewrite Nat.min_r by lia.
    assert ((Z.of_nat (List.length rows - off) =? Z.of_nat size)%Z = false) as Hstop
      by (apply Z.eqb_neq; lia).
    rewrite Hstop.
    exists [map (Posts.format_post um lk) chunk].
    split; [reflexivity|]. split; [|split].
    + rewrite Nat.div_small by lia. reflexivity.
    + cbn [map List.concat]. rewrite app_nil_r, format_post_id. unfold chunk.
      rewrite firstn_all2; [reflexivity|]. rewrite length_skipn. lia.
    + cbn [filter].
      destruct (map (Posts.format_post um lk) chunk) as [|item rest] eqn:E.
      * cbn in Hlen. replace (List.length rows - off)%nat with 0%nat by lia.
        now rewrite ceil_div_zero.
      * cbn in Hlen. cbn. rewrite ceil_div_small; [reflexivity | lia].
Qed.

Lemma post_stats_ids_filtered db (owner : string) (ps : list Post.t) :
  map PostStats.post_id
      (filter (fun r => PostStats.user_id r =? owner) (map (post_stats_row db) ps))
  = map Post.id (filter (fun p => Post.user_id p =? owner) ps).
Proof.
  induction ps as [|p ps IH]; simpl; [reflexivity|].
  destruct (Post.user_id p =? owner); simpl; now rewrite IH.
Qed.

Lemma feed_rows_ids userId db :
  Permutation (map PostStats.post_id (feed_rows userId db))
              (map Post.id (visible_posts userId db)).
Proof.
  unfold feed_rows, visible_posts.
  eapply Permutation_trans; [apply Permutation_map, order_perm|].
  destruct userId as [[|c rest]|]; unfold post_stats.
  - rewrite map_map. apply Permutation_refl.
  - rewrite post_stats_ids_filtered. apply Permutation_refl.
  - rewrite map_map. apply Permutation_refl.
Qed.

Lemma NoDup_map_filter {A B} (f : A -> B) (g : A -> bool) (l : list A) :
  NoDup (map f l) -> NoDup (map f (filter g l)).
Proof.
  induction l as [|a l IH]; simpl; intro H; [constructor|].
  inversion H as [|x xs Hnotin Hrest]; subst.
  destruct (g a); simpl; [|now apply IH].
  constructor; [|now apply IH].
  intro Hin. apply Hnotin. apply in_map_iff in Hin as (y & Hy & Hin).
  apply in_map_iff. exists y. split; [exact Hy|]. now apply filter_In in Hin.
Qed.

Lemma feed_rows_nodup userId db :
  NoDup (map Post.id (posts db)) -> NoDup (map PostStats.post_id (feed_rows userId db)).
Proof.
  intro H. apply (Permutation_NoDup (Permutation_sym (feed_rows_ids userId db))).
  unfold visible_posts. destruct userId as [[|c rest]|]; try exact H.
  now apply NoDup_map_filter.
Qed.

(** C2, counterexample.  A store of sixty posts read with page size sixty:
    the handler serves fifty posts at most, so the loop yields two pages, of
    fifty and of ten posts, where ceil(N/P) is one. *)
Lemma feed_page_count_counterexample :
  exists pages,
    List.length (visible_posts None Crowd.db) = 60%nat
    /\ PostFeed.load_all 3 Sample.env (Some "clerk_ann") None 60 0 Crowd.db = Some pages
    /\ map (@List.length PostWithUser.t) pages = [50; 10]%nat
    /\ List.length pages <> ceil_div 60 60
    /\ List.concat (map (map PostWithUser.id) pages)
       = map PostStats.post_id (feed_rows None Crowd.db).
Proof.
  eexists. split; [reflexivity|]. split; [vm_compute; reflexivity|].
  split; [reflexivity|]. split; [vm_compute; discriminate | vm_compute; reflexivity].
Qed.

(** C2 (amended).  For a signed-in requester and a page size P >= 1, served
    as E = min(P, 50), the view that the list handler pages over is ordered by
    [created_at] descending and holds each visible post once; the feed's loop
    (fetch, move the offset on, go on while [has_more]) ends after
    floor(N/E) + 1 fetches over the N rows of the view: ceil(N/E) pages that
    hold posts, which is ceil(N/P) when P <= 50, and, when E divides N, one
    empty response at the end; and the ids of the pages, concatenated, are the
    ids of the view in order.  P and N are numbers that JavaScript holds and
    prints exactly. *)
Theorem feed_pages_cover_view :
  forall env clerk u userId limit db,
    signed_in clerk u db -> fault env CurrentUser = None -> fault env PostStatsRange = None ->
    (1 <= limit)%nat -> (Z.of_nat limit <= MAX_SAFE_INTEGER)%Z ->
    let size := Nat.min limit 50 in
    let rows := feed_rows userId db in
    Sorted newer_first rows
    /\ Permutation (map PostStats.post_id rows) (map Post.id (visible_posts userId db))
    /\ (NoDup (map Post.id (posts db)) -> NoDup (map PostStats.post_id rows))
    /\ forall fuel,
         (Z.of_nat (List.length rows) + 50 <= MAX_SAFE_INTEGER)%Z ->
         (List.length rows / size + 1 <= fuel)%nat ->
         exists pages,
           PostFeed.load_all fuel env (Some clerk) userId limit 0 db = Some pages
           /\ List.length pages = (List.length rows / size + 1)%nat
           /\ List.length (filter (fun page => negb (is_empty page)) pages)
              = ceil_div (List.length rows) size
           /\ ((limit <= 50)%nat ->
               List.length (filter (fun page => negb (is_empty page)) pages)
               = ceil_div (List.length rows) limit)
           /\ List.length (filter (fun page => is_empty page) pages)
              = (if (List.length rows mod size =? 0)%nat then 1 else 0)%nat
           /\ List.concat (map (map PostWithUser.id) pages) = map PostStats.post_id rows.
Proof.
  intros env clerk u userId limit db Hu F1 F2 Hlimit _. cbv zeta.
  split; [apply order_sorted|]. split; [apply feed_rows_ids|].
  split; [apply feed_rows_nodup|].
  intros fuel Hsafe Hfuel.
  destruct (load_all_from env clerk u userId limit db Hu F1 F2 Hlimit fuel 0%nat)
    as (pages & Hrun & Hcount & Hcat & Hnonempty).
  - exact Hsafe.
  - lia.
  - now rewrite Nat.sub_0_r.
  - rewrite Nat.sub_0_r in *. exists pages. repeat split; try assumption.
    + intro Hcap. rewrite Hnonempty. now rewrite Nat.min_l.
    + pose proof (filter_length (fun page : list PostWithUser.t => is_empty page) pages) as Hsplit.
      cbv beta in Hsplit.
      rewrite Hnonempty, Hcount, (ceil_div_floor (List.length (feed_rows userId db))
                                    (Nat.min limit 50)) in Hsplit by lia.
      destruct (List.length (feed_rows userId db) mod Nat.min limit 50 =? 0)%nat; lia.
Qed.

Lemma feed_pages_cover_view_witness :
  exists pages,
    PostFeed.load_all 4 Sample.env (Some "clerk_ann") None 2 0 Sample.db = Some pages
    /\ List.length pages = 2%nat
    /\ List.concat (map (map PostWithUser.id) pages)
       = map PostStats.post_id (feed_rows None Sample.db).
Proof.
  destruct (feed_pages_cover_view Sample.env "clerk_ann" Sample.ann None 2 Sample.db)
    as (_ & _ & _ & Hloop); try reflexivity.
  - split; [discriminate | reflexivity].
  - apply Nat.leb_le. reflexivity.
  - apply Z.leb_le. reflexivity.
  - destruct (Hloop 4%nat) as (pages & Hrun & Hcount & _ & _ & _ & Hcat).
    + apply Z.leb_le. reflexivity.
    + apply Nat.leb_le. reflexivity.
    + exists pages. repeat split; assumption.
Defined.

(** * Further properties of the handlers *)

Lemma Sample_ann_signed_in : signed_in "clerk_ann" Sample.ann Sample.db.
Proof. split; [discriminate | reflexivity]. Qed.


Lemma set_follows_same db : set_follows db (follows db) = db.
Proof. now destruct db. Qed.

Lemma filter_all {A} (f : A -> bool) (l : list A) :
  (forall x, In x l -> f x = true) -> filter f l = l.
Proof.
  induction l as [|a l IH]; simpl; intro H; [reflexivity|].
  rewrite (H a (or_introl eq_refl)). f_equal. apply IH. intros x Hx. apply H. now right.
Qed.

Lemma fresh_rows_kept (id : uuid) (l : list Follow.t) :
  existsb (fun f => Follow.id f =? id) l = false ->
  filter (fun f => negb (Follow.id f =? id)) l = l.
Proof.
  intro H. apply filter_all. intros x Hx.
  destruct (Follow.id x =? id) eqn:E; [|reflexivity].
  assert (existsb (fun f => Follow.id f =? id) l = true) as Hex
    by (apply existsb_exists; eauto).
  congruence.
Qed.

(** The run of the follow handler for a resolved requester and a target other
    than the requester, from the lookup of the target on. *)
Lemma follows_POST_run env clerk fields t u db :
  assoc "following_id" fields = JsString t -> t <> "" ->
  signed_in clerk u db -> User.id u <> t ->
  fault env CurrentUser = None -> fault env TargetUser = None ->
  Follows.POST env (json_request clerk fields) db =
    match users_by_id t db with
    | [_] =>
        match (match fault env FollowLookup with
               | Some _ => false
               | None => match follows_of (User.id u) t db with [_] => true | _ => false end
               end) with
        | true => (error_json "Already following this user" 400, db)
        | false =>
            match fault env FollowInsert with
            | Some e =>
                (if code e =? "23505" then error_json "Already following this user" 400
                 else json (ErrorBody "Failed to follow user" (Some (message e))) (Some 500%nat),
                 db)
            | None =>
                if existsb (same_follow (User.id u) t) (follows db)
                then (error_json "Already following this user" 400, db)
                else
                  let row := Follow.mk (gen_random_uuid env) (User.id u) t (now env) in
                  (json (FollowAddedBody row) None, set_follows db (follows db ++ [row]))
            end
        end
    | _ => (error_json "Target user not found" 404, db)
    end.
Proof.
  intros Hf Ht [Hc Hu] Hne F1 F2.
  pose proof (signed_in_has_user clerk u db (conj Hc Hu)) as Huser.
  apply String.eqb_neq in Hne.
  unfold Follows.POST. run.
  destruct (users_by_id t db) as [|target [|]] eqn:Htarget; cbn; try reflexivity.
  pose proof (filter_singleton_existsb _ _ _ Htarget) as Hhas.
  assert (forall d : Db,
             users d = users db -> follows d = follows db ->
             (let (r, db') := insert_follow env (User.id u) t d in
              match error r with
              | Some followError =>
                  if code followError =? "23505"
                  then (Return (error_json "Already following this user" 400), db')
                  else (Return (json (ErrorBody "Failed to follow user"
                                        (Some (message followError))) (Some 500%nat)), db')
              | None =>
                  match data r with
                  | Some a => (Next (json (FollowAddedBody a) None), db')
                  | None => (Throw, db')
                  end
              end)
             = if existsb (same_follow (User.id u) t) (follows db)
               then (Return (error_json "Already following this user" 400), d)
               else (Next (json (FollowAddedBody
                                   (Follow.mk (gen_random_uuid env) (User.id u) t (now env))) None),
                     set_follows d (follows d ++
                       [Follow.mk (gen_random_uuid env) (User.id u) t (now env)]))) as Hinsert.
  { intros d Hud Hfd. unfold insert_follow. rewrite Hfd.
    destruct (existsb (same_follow (User.id u) t) (follows db)); cbn; [reflexivity|].
    rewrite Hne. unfold has_user in *. rewrite Hud. unfold users_by_id in Hhas.
    rewrite Huser, Hhas. cbn. reflexivity. }
  destruct (fault env FollowLookup); cbn.
  - destruct (fault env FollowInsert) as [e|]; cbn.
    + destruct (code e =? "23505"); reflexivity.
    + specialize (Hinsert db eq_refl eq_refl).
      destruct (insert_follow env (User.id u) t db) as [r d'].
      destruct (existsb (same_follow (User.id u) t) (follows db)).
      * destruct (error r) as [e|]; [destruct (code e =? "23505")|destruct (data r)];
          inversion Hinsert; reflexivity.
      * destruct (error r) as [e|]; [destruct (code e =? "23505")|destruct (data r)];
          inversion Hinsert; reflexivity.
  - destruct (follows_of (User.id u) t db) as [|row [|]] eqn:Hrows; cbn; try reflexivity.
    + destruct (fault env FollowInsert) as [e|]; cbn.
      * destruct (code e =? "23505"); reflexivity.
      * specialize (Hinsert db eq_refl eq_refl).
        destruct (insert_follow env (User.id u) t db) as [r d'].
        destruct (existsb (same_follow (User.id u) t) (follows db)).
        -- destruct (error r) as [e|]; [destruct (code e =? "23505")|destruct (data r)];
             inversion Hinsert; reflexivity.
        -- destruct (error r) as [e|]; [destruct (code e =? "23505")|destruct (data r)];
             inversion Hinsert; reflexivity.
    + destruct (fault env FollowInsert) as [e|]; cbn.
      * destruct (code e =? "23505"); reflexivity.
      * specialize (Hinsert db eq_refl eq_refl).
        destruct (insert_follow env (User.id u) t db) as [r d'].
        destruct (existsb (same_follow (User.id u) t) (follows db)).
        -- destruct (error r) as [e|]; [destruct (code e =? "23505")|destruct (data r)];
             inversion Hinsert; reflexivity.
        -- destruct (error r) as [e|]; [destruct (code e =? "23505")|destruct (data r)];
             inversion Hinsert; reflexivity.
Qed.

(** X1.  A follow request for a target that has no users row answers 404
    "Target user not found"; one for a target the requester already follows
    answers 400 "Already following this user", whether the handler's own
    lookup finds the row or, that lookup failing, the unique constraint does.
    Neither writes anything. *)
Theorem follow_rejections :
  forall env clerk fields t u db,
    assoc "following_id" fields = JsString t -> t <> "" ->
    signed_in clerk u db -> User.id u <> t ->
    fault env CurrentUser = None -> fault env TargetUser = None ->
    (users_by_id t db = [] ->
       Follows.POST env (json_request clerk fields) db
         = (error_json "Target user not found" 404, db))
    /\ (forall target,
          users_by_id t db = [target] -> follows_of (User.id u) t db <> [] ->
          fault env FollowInsert = None ->
          Follows.POST env (json_request clerk fields) db
            = (error_json "Already following this user" 400, db)).
Proof.
  intros env clerk fields t u db Hf Ht Hs Hne F1 F2.
  pose proof (follows_POST_run env clerk fields t u db Hf Ht Hs Hne F1 F2) as Hrun.
  split.
  - intro Hnone. now rewrite Hrun, Hnone.
  - intros target Htarget Hrows F3. rewrite Hrun, Htarget, F3.
    unfold follows_of in Hrows. rewrite (filter_nonempty_existsb _ _ Hrows).
    destruct (fault env FollowLookup); [reflexivity|].
    now destruct (follows_of (User.id u) t db) as [|row [|]].
Qed.

Lemma follow_rejections_witness :
  Follows.POST Sample.env (json_request "clerk_ann" [("following_id", JsString "u-zed")])
    Sample.db
    = (error_json "Target user not found" 404, Sample.db)
  /\ Follows.POST Sample.env (json_request "clerk_ann" [("following_id", JsString "u-bob")])
       Sample.db
     = (error_json "Already following this user" 400, Sample.db).
Proof.
  assert (signed_in "clerk_ann" Sample.ann Sample.db) as Hs
    by (split; [discriminate | reflexivity]).
  split.
  - apply (follow_rejections Sample.env "clerk_ann" [("following_id", JsString "u-zed")]
             "u-zed" Sample.ann Sample.db eq_refl ltac:(discriminate) Hs
             ltac:(discriminate) eq_refl eq_refl).
    reflexivity.
  - apply (proj2 (follow_rejections Sample.env "clerk_ann"
                    [("following_id", JsString "u-bob")]
                    "u-bob" Sample.ann Sample.db eq_refl ltac:(discriminate) Hs
                    ltac:(discriminate) eq_refl eq_refl) Sample.bob);
      [reflexivity | discriminate | reflexivity].
Defined.

(** The run of the unfollow handler for a resolved requester. *)
Lemma follows_DELETE_run env clerk fields t u db :
  assoc "following_id" fields = JsString t -> t <> "" ->
  signed_in clerk u db ->
  fault env CurrentUser = None -> fault env FollowLookup = None ->
  fault env FollowDelete = None ->
  Follows.DELETE env (json_request clerk fields) db =
    match follows_of (User.id u) t db with
    | [follow] =>
        (json (SuccessBody "Unfollowed successfully") None,
         set_follows db (filter (fun f => negb (Follow.id f =? Follow.id follow)) (follows db)))
    | _ => (error_json "Follow relationship not found" 404, db)
    end.
Proof.
  intros Hf Ht [Hc Hu] F1 F2 F3.
  unfold Follows.DELETE. run.
  destruct (follows_of (User.id u) t db) as [|follow [|]] eqn:Hrows; cbn; try reflexivity.
  apply filter_singleton_In in Hrows as [_ Hsame].
  unfold same_follow in Hsame. apply andb_true_iff in Hsame as [Hfollower _].
  rewrite Hfollower. cbn. reflexivity.
Qed.

(** X2.  Unfollowing a user the requester does not follow answers 404 "Follow
    relationship not found" and leaves the store as it is. *)
Theorem unfollow_without_follow :
  forall env clerk fields t u db,
    assoc "following_id" fields = JsString t -> t <> "" ->
    signed_in clerk u db ->
    fault env CurrentUser = None ->
    follows_of (User.id u) t db = [] ->
    Follows.DELETE env (json_request clerk fields) db
      = (error_json "Follow relationship not found" 404, db).
Proof.
  intros env clerk fields t u db Hf Ht [Hc Hu] F1 Hnone.
  unfold Follows.DELETE. run.
  destruct (fault env FollowLookup); cbn; try rewrite Hnone; reflexivity.
Qed.

Lemma unfollow_without_follow_witness :
  Follows.DELETE Sample.env (json_request "clerk_bob" [("following_id", JsString "u-ann")])
    Sample.db
    = (error_json "Follow relationship not found" 404, Sample.db).
Proof.
  apply (unfollow_without_follow Sample.env "clerk_bob" [("following_id", JsString "u-ann")]
           "u-ann" Sample.bob Sample.db); try reflexivity; try discriminate.
  split; [discriminate | reflexivity].
Defined.

(** X3.  Following and then unfollowing is a round trip: the follow request
    of a resolved requester for an existing other user not yet followed
    appends one row (requester, target) and succeeds, and the unfollow
    request that comes next succeeds and gives back the store as it was
    before the follow; a second unfollow then answers 404. *)
Theorem follow_unfollow_round_trip :
  forall env env' clerk fields t target u db,
    assoc "following_id" fields = JsString t -> t <> "" ->
    signed_in clerk u db -> User.id u <> t ->
    users_by_id t db = [target] ->
    follows_of (User.id u) t db = [] ->
    fresh_follow_id (gen_random_uuid env) db ->
    fault env CurrentUser = None -> fault env TargetUser = None ->
    fault env FollowInsert = None ->
    fault env' CurrentUser = None -> fault env' FollowLookup = None ->
    fault env' FollowDelete = None ->
    exists follow,
      let db1 := set_follows db (follows db ++ [follow]) in
      Follows.POST env (json_request clerk fields) db = (json (FollowAddedBody follow) None, db1)
      /\ Follow.follower_id follow = User.id u /\ Follow.following_id follow = t
      /\ Follows.DELETE env' (json_request clerk fields) db1
         = (json (SuccessBody "Unfollowed successfully") None, db)
      /\ Follows.DELETE env' (json_request clerk fields) db
         = (error_json "Follow relationship not found" 404, db).
Proof.
  intros env env' clerk fields t target u db Hf Ht Hs Hne Htarget Hnone Hfresh
         F1 F2 F3 G1 G2 G3.
  set (row := Follow.mk (gen_random_uuid env) (User.id u) t (now env)).
  assert (same_follow (User.id u) t row = true) as Hrow
    by (unfold same_follow, row; cbn; now rewrite !String.eqb_refl).
  exists row. cbv zeta. split; [|split; [reflexivity|split; [reflexivity|split]]].
  - rewrite (follows_POST_run env clerk fields t u db Hf Ht Hs Hne F1 F2), Htarget, F3.
    unfold follows_of in Hnone. rewrite (filter_nil_existsb _ _ Hnone).
    fold (follows_of (User.id u) t db). unfold follows_of. rewrite Hnone.
    now destruct (fault env FollowLookup).
  - rewrite (follows_DELETE_run env' clerk fields t u
               (set_follows db (follows db ++ [row])) Hf Ht Hs G1 G2 G3).
    unfold follows_of in *. cbn [follows set_follows]. rewrite filter_app, Hnone.
    cbn [filter app]. rewrite Hrow. cbn [set_follows users posts likes comments follows bucket].
    change (Follow.id row) with (gen_random_uuid env).
    rewrite filter_app, (fresh_rows_kept _ _ Hfresh). cbn [filter Follow.id row].
    rewrite String.eqb_refl. cbn [negb]. rewrite app_nil_r.
    f_equal. now destruct db.
  - rewrite (follows_DELETE_run env' clerk fields t u db Hf Ht Hs G1 G2 G3).
    now rewrite Hnone.
Qed.

Lemma follow_unfollow_round_trip_witness :
  exists follow,
    Follows.POST Sample.env (json_request "clerk_bob" [("following_id", JsString "u-ann")])
      Sample.db
      = (json (FollowAddedBody follow) None,
         set_follows Sample.db (follows Sample.db ++ [follow]))
    /\ Follows.DELETE Sample.env (json_request "clerk_bob" [("following_id", JsString "u-ann")])
         (set_follows Sample.db (follows Sample.db ++ [follow]))
       = (json (SuccessBody "Unfollowed successfully") None, Sample.db).
Proof.
  destruct (follow_unfollow_round_trip Sample.env Sample.env "clerk_bob"
              [("following_id", JsString "u-ann")] "u-ann" Sample.ann Sample.bob Sample.db)
    as (follow & Hpost & _ & _ & Hdelete & _); try reflexivity; try discriminate.
  - split; [discriminate | reflexivity].
  - exists follow. split; assumption.
Defined.

(** *** [trim] *)

Lemma append_cons c (s t : string) : (String c s ++ t)%string = String c (s ++ t).
Proof. reflexivity. Qed.

Lemma append_nil (t : string) : ("" ++ t)%string = t.
Proof. reflexivity. Qed.

Lemma append_assoc (s t w : string) : ((s ++ t) ++ w)%string = (s ++ (t ++ w))%string.
Proof.
  induction s as [|c s IH]; [reflexivity|]. rewrite !append_cons. now rewrite IH.
Qed.

Lemma append_empty_r s : (s ++ "")%string = s.
Proof. induction s as [|c s IH]; [reflexivity|]. rewrite append_cons. now rewrite IH. Qed.

Lemma reverse_app s acc : reverse s acc = (reverse s "" ++ acc)%string.
Proof.
  revert acc. induction s as [|c s IH]; intro acc; cbn [reverse]; [reflexivity|].
  rewrite (IH (String c acc)), (IH (String c "")).
  rewrite append_assoc. reflexivity.
Qed.

Lemma reverse_append s t :
  reverse (s ++ t)%string "" = (reverse t "" ++ reverse s "")%string.
Proof.
  induction s as [|c s IH].
  - rewrite append_nil. cbn [reverse]. now rewrite append_empty_r.
  - rewrite append_cons. cbn [reverse].
    rewrite reverse_app, IH, (reverse_app s (String c "")).
    now rewrite append_assoc.
Qed.

Lemma reverse_involutive s : reverse (reverse s "") "" = s.
Proof.
  induction s as [|c s IH]; cbn [reverse]; [reflexivity|].
  rewrite (reverse_app s (String c "")), reverse_append, IH. reflexivity.
Qed.

Lemma length_append s t : length (s ++ t)%string = (length s + length t)%nat.
Proof.
  induction s as [|c s IH]; [reflexivity|].
  rewrite append_cons. change (length (String c (s ++ t))) with (S (length (s ++ t)%string)).
  rewrite IH. reflexivity.
Qed.

Lemma length_cons c s : length (String c s) = S (length s).
Proof. reflexivity. Qed.

Lemma length_reverse s : length (reverse s "") = length s.
Proof.
  induction s as [|c s IH]; cbn [reverse]; [reflexivity|].
  rewrite (reverse_app s (String c "")), length_append, IH, !length_cons.
  change (length "") with 0%nat. lia.
Qed.

Lemma trim_start_length s : (length (trim_start s) <= length s)%nat.
Proof.
  induction s as [|c s IH]; cbn [trim_start]; [lia|].
  destruct (is_white_space c); rewrite ?length_cons; lia.
Qed.

Lemma trim_start_clean s : clean_start (trim_start s).
Proof.
  induction s as [|c s IH]; cbn [trim_start]; [exact I|].
  destruct (is_white_space c) eqn:E; [exact IH | exact E].
Qed.

Lemma trim_start_fixed s : clean_start s -> trim_start s = s.
Proof. destruct s as [|c s]; cbn; [reflexivity|]. now intros ->. Qed.

Lemma trim_start_all_white s : all_white_space s = true -> trim_start s = "".
Proof.
  induction s as [|c s IH]; cbn [all_white_space trim_start]; [reflexivity|].
  intro H. apply andb_true_iff in H as [Hc Hs]. rewrite Hc. now apply IH.
Qed.

(** Dropping leading white space keeps a last code unit that is not white
    space. *)
Lemma trim_start_keeps_last s c :
  is_white_space c = false ->
  exists rest, trim_start (s ++ String c "")%string = (rest ++ String c "")%string.
Proof.
  intro Hc. induction s as [|d s IH].
  - rewrite append_nil. cbn [trim_start]. rewrite Hc. now exists "".
  - rewrite append_cons. cbn [trim_start].
    destruct (is_white_space d); [exact IH|]. now exists (String d s).
Qed.

Lemma trim_unfold s : trim s = reverse (trim_start (reverse (trim_start s) "")) "".
Proof. reflexivity. Qed.

Lemma trim_clean_end s : clean_end (trim s).
Proof.
  unfold clean_end. rewrite trim_unfold, reverse_involutive. apply trim_start_clean.
Qed.

Lemma trim_clean_start s : clean_start (trim s).
Proof.
  rewrite trim_unfold. pose proof (trim_start_clean s) as H.
  destruct (trim_start s) as [|c s1]; [exact I|].
  cbn [reverse]. rewrite (reverse_app s1 (String c "")).
  destruct (trim_start_keeps_last (reverse s1 "") c H) as (rest & ->).
  rewrite reverse_append. cbn [reverse]. rewrite append_cons. exact H.
Qed.

Lemma trim_fixed s : clean_start s -> clean_end s -> trim s = s.
Proof.
  intros Hs He. rewrite trim_unfold, (trim_start_fixed s Hs).
  unfold clean_end in He. rewrite (trim_start_fixed _ He). apply reverse_involutive.
Qed.

Lemma trim_idempotent s : trim (trim s) = trim s.
Proof. apply trim_fixed; [apply trim_clean_start | apply trim_clean_end]. Qed.

Lemma trim_length s : (length (trim s) <= length s)%nat.
Proof.
  rewrite trim_unfold, length_reverse.
  eapply Nat.le_trans; [apply trim_start_length|].
  rewrite length_reverse. apply trim_start_length.
Qed.

Lemma trim_all_white s : all_white_space s = true -> trim s = "".
Proof. intro H. rewrite trim_unfold, (trim_start_all_white s H). reflexivity. Qed.

Lemma trim_empty_all_white s : trim s = "" -> all_white_space s = true.
Proof.
  intro H. rewrite trim_unfold in H.
  assert (trim_start (reverse (trim_start s) "") = "") as H1.
  { rewrite <- (reverse_involutive (trim_start _)). now rewrite H. }
  assert (trim_start s = "") as H2.
  { pose proof (trim_start_clean s) as Hclean.
    destruct (trim_start s) as [|c s1]; [reflexivity|].
    cbn [reverse] in H1. rewrite (reverse_app s1 (String c "")) in H1.
    destruct (trim_start_keeps_last (reverse s1 "") c Hclean) as (rest & E).
    rewrite E in H1. destruct rest; discriminate H1. }
  clear H H1. induction s as [|c s IH]; [reflexivity|].
  cbn [trim_start all_white_space] in *. destruct (is_white_space c); [|discriminate H2].
  now apply IH.
Qed.

(** X4.  A comment whose content is empty or white space only is refused with
    400 "content is required and cannot be empty" before any lookup: nothing
    is read or written, whoever the requester is. *)
Theorem blank_comment_rejected :
  forall env clerk fields p c db,
    clerk <> "" ->
    assoc "post_id" fields = JsString p -> p <> "" ->
    assoc "content" fields = JsString c -> all_white_space c = true ->
    Comments.POST env (json_request clerk fields) db
      = (error_json "content is required and cannot be empty" 400, db).
Proof.
  intros env clerk fields p c db Hc Hp Hpne Hcontent Hblank.
  pose proof (trim_all_white c Hblank) as Htrim.
  unfold Comments.POST. run.
  destruct (c =? ""); cbn; [reflexivity|]. rewrite Htrim. reflexivity.
Qed.

Lemma blank_comment_rejected_witness :
  Comments.POST Sample.env
    (json_request "clerk_ann" [("post_id", JsString "p1"); ("content", JsString "   ")])
    Sample.db
    = (error_json "content is required and cannot be empty" 400, Sample.db).
Proof.
  apply (blank_comment_rejected Sample.env "clerk_ann"
           [("post_id", JsString "p1"); ("content", JsString "   ")] "p1" "   " Sample.db);
    try reflexivity; discriminate.
Defined.

(** X5.  A comment with some content on an existing post is stored with the
    trimmed content: one row is appended whose content is not empty and
    neither starts nor ends with white space, and the response carries that
    row with its author.  The author is the requester's row; if the lookup of
    the author fails the comment is still created and returned, with a
    placeholder author named "Unknown". *)
Theorem comment_is_stored_trimmed :
  forall env clerk fields p c u post db,
    assoc "post_id" fields = JsString p -> p <> "" ->
    assoc "content" fields = JsString c -> trim c <> "" ->
    signed_in clerk u db -> posts_by_id p db = [post] ->
    fault env CurrentUser = None -> fault env PostLookup = None ->
    fault env CommentInsert = None ->
    exists comment author,
      Comments.POST env (json_request clerk fields) db
        = (json (CommentCreatedBody (CommentWithUser.mk comment author)) None,
           set_comments db (comments db ++ [comment]))
      /\ Comment.post_id comment = p /\ Comment.user_id comment = User.id u
      /\ Comment.content comment = trim c
      /\ Comment.content comment <> ""
      /\ clean_start (Comment.content comment) /\ clean_end (Comment.content comment)
      /\ (fault env CommentAuthor = None -> users_by_id (User.id u) db = [u] -> author = u)
      /\ (forall e, fault env CommentAuthor = Some e ->
                    author = User.mk (User.id u) clerk "Unknown" (Comment.created_at comment)).
Proof.
  intros env clerk fields p c u post db Hp Hpne Hcontent Htrim [Hc Hu] Hpost F1 F2 F3.
  pose proof (signed_in_has_user clerk u db (conj Hc Hu)) as Huser.
  pose proof (filter_singleton_existsb _ _ _ Hpost) as Hhas.
  destruct (trim_not_empty c Htrim) as [Hcne Hlen].
  set (row := Comment.mk (gen_random_uuid env) p (User.id u) (trim c) (now env) (now env)).
  exists row.
  exists (match fault env CommentAuthor with
          | Some _ => User.mk (User.id u) clerk "Unknown" (now env)
          | None => match users_by_id (User.id u) db with
                    | [a] => a
                    | _ => User.mk (User.id u) clerk "Unknown" (now env)
                    end
          end).
  split; [|repeat split].
  - unfold Comments.POST. run. rewrite Hlen. run.
    unfold insert_comment. unfold has_post. rewrite Hhas, Huser. cbn.
    destruct (fault env CommentAuthor); cbn; [reflexivity|].
    assert (forall d, users d = users db ->
                      users_by_id (User.id u) d = users_by_id (User.id u) db) as Hsame
      by (intros d E; unfold users_by_id; now rewrite E).
    rewrite Hsame by reflexivity.
    now destruct (users_by_id (User.id u) db) as [|a [|]].
  - exact Htrim.
  - apply trim_clean_start.
  - apply trim_clean_end.
  - intros F4 Hauthor. now rewrite F4, Hauthor.
  - intros e F4. now rewrite F4.
Qed.

Lemma comment_is_stored_trimmed_witness :
  exists comment author,
    Comments.POST Sample.env
      (json_request "clerk_ann" [("post_id", JsString "p2"); ("content", JsString "  wow ")])
      Sample.db
      = (json (CommentCreatedBody (CommentWithUser.mk comment author)) None,
         set_comments Sample.db (comments Sample.db ++ [comment]))
    /\ Comment.content comment = "wow" /\ author = Sample.ann.
Proof.
  assert (trim "  wow " = "wow") as Htrim by (vm_compute; reflexivity).
  assert (trim "  wow " <> "") as Hne by (rewrite Htrim; discriminate).
  destruct (comment_is_stored_trimmed Sample.env "clerk_ann"
              [("post_id", JsString "p2"); ("content", JsString "  wow ")]
              "p2" "  wow " Sample.ann Sample.p2 Sample.db
              eq_refl ltac:(discriminate) eq_refl Hne
              Sample_ann_signed_in eq_refl eq_refl eq_refl eq_refl)
    as (comment & author & Hrun & _ & _ & Hcontent & _ & _ & _ & Hauthor & _).
  exists comment, author. split; [exact Hrun|]. split; [now rewrite Hcontent|].
  apply Hauthor; reflexivity.
Defined.

(** X6.  Liking or commenting on a post that does not exist answers 404 "Post
    not found" and stores nothing. *)
Theorem no_like_or_comment_on_missing_post :
  forall env clerk fields p u db,
    assoc "post_id" fields = JsString p -> p <> "" ->
    signed_in clerk u db -> fault env CurrentUser = None ->
    posts_by_id p db = [] ->
    Likes.POST env (json_request clerk fields) db = (error_json "Post not found" 404, db)
    /\ (forall c, assoc "content" fields = JsString c -> trim c <> "" ->
                  Comments.POST env (json_request clerk fields) db
                    = (error_json "Post not found" 404, db)).
Proof.
  intros env clerk fields p u db Hp Hpne [Hc Hu] F1 Hnone. split.
  - unfold Likes.POST. run. destruct (fault env PostLookup); cbn; try rewrite Hnone; reflexivity.
  - intros c Hcontent Htrim. destruct (trim_not_empty c Htrim) as [Hcne Hlen].
    unfold Comments.POST. run. rewrite Hlen. run.
    destruct (fault env PostLookup); cbn; try rewrite Hnone; reflexivity.
Qed.

Lemma no_like_or_comment_on_missing_post_witness :
  Likes.POST Sample.env (json_request "clerk_ann" [("post_id", JsString "p9")]) Sample.db
    = (error_json "Post not found" 404, Sample.db).
Proof.
  apply (no_like_or_comment_on_missing_post Sample.env "clerk_ann"
           [("post_id", JsString "p9")] "p9" Sample.ann Sample.db
           eq_refl ltac:(discriminate) Sample_ann_signed_in eq_refl eq_refl).
Defined.



(** *** Deleting a post *)

Lemma filter_negb_absent {A} (f : A -> bool) (l : list A) x :
  In x (filter (fun y => negb (f y)) l) -> f x = false.
Proof. intro H. apply filter_In in H as [_ H]. now apply negb_true_iff in H. Qed.

(** X8.  The owner of a post can delete it, and the delete cascades: the
    handler answers "Post deleted successfully", no post with that id and no
    like or comment that refers to it is left, the likes and comments of the
    other posts and the other posts themselves are kept, users and follows
    are untouched, and the bucket loses at most the post's object.  An error
    from storage does not stop the row from being deleted: the bucket is then
    simply left as it was. *)
Theorem owner_deletes_post :
  forall env clerk id u post db,
    id <> "" -> signed_in clerk u db ->
    posts_by_id id db = [post] -> Post.user_id post = User.id u ->
    fault env CurrentUser = None -> fault env PostLookup = None ->
    fault env PostDelete = None -> remove_rejects env = false ->
    exists db1,
      PostById.DELETE env (mkPostRequest (Some clerk) id) db
        = (json (SuccessBody "Post deleted successfully") None, db1)
      /\ posts_by_id id db1 = []
      /\ (forall l, In l (likes db1) -> Like.post_id l <> id)
      /\ (forall c, In c (comments db1) -> Comment.post_id c <> id)
      /\ (forall p, In p (posts db) -> Post.id p <> id -> In p (posts db1))
      /\ (forall l, In l (likes db) -> Like.post_id l <> id -> In l (likes db1))
      /\ (forall c, In c (comments db) -> Comment.post_id c <> id -> In c (comments db1))
      /\ users db1 = users db /\ follows db1 = follows db
      /\ (forall path, In path (bucket db1) -> In path (bucket db))
      /\ (forall e, fault env StorageRemove = Some e -> bucket db1 = bucket db).
Proof.
  intros env clerk id u post db Hid [Hc Hu] Hpost Howner F1 F2 F3 Hremove.
  apply String.eqb_eq in Howner.
  assert (forall b,
             (forall path, In path b -> In path (bucket db)) ->
             (forall e, fault env StorageRemove = Some e -> b = bucket db) ->
             let db1 := mkDb (users db)
                          (filter (fun p => negb (Post.id p =? id)) (posts db))
                          (filter (fun l => negb (Like.post_id l =? id)) (likes db))
                          (filter (fun c => negb (Comment.post_id c =? id)) (comments db))
                          (follows db) b in
             posts_by_id id db1 = []
             /\ (forall l, In l (likes db1) -> Like.post_id l <> id)
             /\ (forall c, In c (comments db1) -> Comment.post_id c <> id)
             /\ (forall p, In p (posts db) -> Post.id p <> id -> In p (posts db1))
             /\ (forall l, In l (likes db) -> Like.post_id l <> id -> In l (likes db1))
             /\ (forall c, In c (comments db) -> Comment.post_id c <> id -> In c (comments db1))
             /\ users db1 = users db /\ follows db1 = follows db
             /\ (forall path, In path (bucket db1) -> In path (bucket db))
             /\ (forall e, fault env StorageRemove = Some e -> bucket db1 = bucket db)) as Hshape.
  { intros b Hb Hfault. cbv zeta. cbn [users posts likes comments follows bucket].
    repeat split; try assumption.
    - unfold posts_by_id. cbn. apply filter_negb_none.
    - intros l Hin. apply (filter_negb_absent (fun l => Like.post_id l =? id)) in Hin.
      now apply String.eqb_neq.
    - intros c Hin. apply (filter_negb_absent (fun c => Comment.post_id c =? id)) in Hin.
      now apply String.eqb_neq.
    - intros p Hin Hne. apply filter_In. split; [exact Hin|].
      apply String.eqb_neq in Hne. now rewrite Hne.
    - intros l Hin Hne. apply filter_In. split; [exact Hin|].
      apply String.eqb_neq in Hne. now rewrite Hne.
    - intros c Hin Hne. apply filter_In. split; [exact Hin|].
      apply String.eqb_neq in Hne. now rewrite Hne. }
  unfold PostById.DELETE. run.
  destruct (match pathname env (Post.image_url post) with
            | Some path =>
                match after_posts path with
                | Some captured => Some (first_segment "?" captured)
                | None => None
                end
            | None => None
            end) as [[|c rest]|]; cbn.
  - eexists. split; [reflexivity|]. apply Hshape; [tauto | reflexivity].
  - rewrite Hremove. unfold query. destruct (fault env StorageRemove) eqn:Hst; cbn.
    + try rewrite F3. cbn. eexists. split; [reflexivity|]. apply Hshape; [tauto | reflexivity].
    + try rewrite F3. cbn. eexists. split; [reflexivity|]. apply Hshape.
      * intros path Hin. now apply filter_In in Hin.
      * intros e He. discriminate He.
  - eexists. split; [reflexivity|]. apply Hshape; [tauto | reflexivity].
Qed.

Lemma owner_deletes_post_witness :
  exists db1,
    PostById.DELETE Sample.env (mkPostRequest (Some "clerk_ann") "p1") Sample.db
      = (json (SuccessBody "Post deleted successfully") None, db1)
    /\ posts_by_id "p1" db1 = []
    /\ (forall c, In c (comments db1) -> Comment.post_id c <> "p1").
Proof.
  destruct (owner_deletes_post Sample.env "clerk_ann" "p1" Sample.ann Sample.p1 Sample.db
              ltac:(discriminate) Sample_ann_signed_in
              eq_refl eq_refl eq_refl eq_refl eq_refl eq_refl)
    as (db1 & Hrun & Hgone & _ & Hcomments & _).
  exists db1. repeat split; assumption.
Defined.

(** X9.  If the promise of the storage removal rejects while the owner
    deletes a post whose image URL yields an object path, the handler stops:
    it answers 500 "Internal server error" and the post row, with its likes
    and comments, is still there. *)
Theorem rejected_removal_keeps_post :
  forall env clerk id u post path captured c rest db,
    id <> "" -> signed_in clerk u db ->
    posts_by_id id db = [post] -> Post.user_id post = User.id u ->
    fault env CurrentUser = None -> fault env PostLookup = None ->
    pathname env (Post.image_url post) = Some path ->
    after_posts path = Some captured ->
    first_segment "?" captured = String c rest ->
    remove_rejects env = true ->
    PostById.DELETE env (mkPostRequest (Some clerk) id) db
      = (error_json "Internal server error" 500, db).
Proof.
  intros env clerk id u post path captured c rest db Hid [Hc Hu] Hpost Howner F1 F2
         Hpath Hcap Hseg Hreject.
  apply String.eqb_eq in Howner.
  unfold PostById.DELETE. run. rewrite Hpath, Hcap, Hseg. cbn. rewrite Hreject. reflexivity.
Qed.

Lemma rejected_removal_keeps_post_witness :
  PostById.DELETE
    (mkEnv no_fault true "fresh-id" 100%Z "100-k3x9" "https://proj.supabase.co/storage/v1"
       Sample.path_of)
    (mkPostRequest (Some "clerk_ann") "p1") Sample.db
    = (error_json "Internal server error" 500, Sample.db).
Proof.
  apply (rejected_removal_keeps_post _ "clerk_ann" "p1" Sample.ann Sample.p1
           "/storage/v1/object/public/posts/clerk_ann/1-a.jpg" "clerk_ann/1-a.jpg"
           "c" "lerk_ann/1-a.jpg" Sample.db);
    try reflexivity; try discriminate.
  split; [discriminate | reflexivity].
Defined.

(** *** The detail handler for any viewer *)

Lemma post_stats_by_id id db :
  filter (fun r => PostStats.post_id r =? id) (post_stats db)
  = map (post_stats_row db) (posts_by_id id db).
Proof.
  unfold post_stats, posts_by_id.
  induction (posts db) as [|p ps IH]; simpl; [reflexivity|].
  destruct (Post.id p =? id); simpl; now rewrite IH.
Qed.

(** X10.  The detail handler serves any viewer: for an existing post whose
    owner exists it answers with the stored post and its owner and leaves the
    store alone, whether the request carries no session, a session whose
    subject has no users row (no 404 here) or a resolved one; [is_liked] is
    false in the first two cases and, for a resolved viewer, true exactly
    when the likes table holds one row for (post, viewer). *)
Theorem detail_for_any_viewer :
  forall env viewer id post owner db,
    id <> "" -> posts_by_id id db = [post] ->
    users_by_id (Post.user_id post) db = [owner] ->
    fault env PostStatsLookup = None -> fault env PostLookup = None ->
    fault env OwnerLookup = None ->
    exists detail,
      PostById.GET env (mkPostRequest viewer id) db = (json (PostDetailBody detail) None, db)
      /\ PostWithUser.id detail = Post.id post
      /\ PostWithUser.user_id detail = Post.user_id post
      /\ PostWithUser.image_url detail = Post.image_url post
      /\ PostWithUser.caption detail = Post.caption post
      /\ PostWithUser.created_at detail = Post.created_at post
      /\ PostWithUser.updated_at detail = Post.updated_at post
      /\ PostWithUser.user detail = owner
      /\ (no_session viewer = true -> PostWithUser.is_liked detail = false)
      /\ (forall clerk, viewer = Some clerk -> users_by_clerk_id clerk db = [] ->
                        PostWithUser.is_liked detail = false)
      /\ (forall clerk me,
            viewer = Some clerk -> signed_in clerk me db ->
            fault env CurrentUser = None -> fault env LikeLookup = None ->
            PostWithUser.is_liked detail
            = match likes_of id (User.id me) db with [_] => true | _ => false end).
Proof.
  intros env viewer id post owner db Hid Hpost Howner F1 F2 F3.
  pose proof (post_stats_by_id id db) as Hstats. rewrite Hpost in Hstats. cbn in Hstats.
  apply not_empty_eqb in Hid.
  unfold PostById.GET. unfold_handler. cbn. rewrite Hid. cbn. rewrite F1. cbn.
  rewrite Hstats. cbn. rewrite F2. cbn. rewrite Hpost. cbn. rewrite F3. cbn.
  rewrite Howner. cbn.
  destruct viewer as [clerk|]; cbn.
  - destruct (clerk =? "") eqn:Hc; cbn.
    + eexists. split; [reflexivity|]. cbn.
      repeat match goal with |- _ /\ _ => split end; try (intros; reflexivity).
      intros clerk' me E [Hne _]. injection E as <-.
      apply not_empty_eqb in Hne. congruence.
    + destruct (fault env CurrentUser) eqn:F4; cbn.
      * eexists. split; [reflexivity|]. cbn.
        repeat match goal with |- _ /\ _ => split end; try (intros; reflexivity).
        intros; discriminate.
      * destruct (users_by_clerk_id clerk db) as [|me [|]] eqn:Hme; cbn.
        -- eexists. split; [reflexivity|]. cbn.
           repeat match goal with |- _ /\ _ => split end; try (intros; reflexivity).
           intros clerk' me E [_ Hme']. injection E as <-. congruence.
        -- destruct (fault env LikeLookup) eqn:F5; cbn.
           ++ eexists. split; [reflexivity|]. cbn.
              repeat match goal with |- _ /\ _ => split end; try (intros; reflexivity).
              intros; discriminate.
           ++ eexists. split; [reflexivity|]. cbn.
              repeat match goal with |- _ /\ _ => split end; try (intros; reflexivity).
              ** intros; discriminate.
              ** intros clerk' E Hnone. injection E as <-. congruence.
              ** intros clerk' me' E [_ Hme'] _ _. injection E as <-.
                 rewrite Hme in Hme'. injection Hme' as <-.
                 now destruct (likes_of id (User.id me) db) as [|l [|]].
        -- eexists. split; [reflexivity|]. cbn.
           repeat match goal with |- _ /\ _ => split end; try (intros; reflexivity).
           intros clerk' me' E [_ Hme']. injection E as <-. congruence.
  - eexists. split; [reflexivity|]. cbn.
    repeat match goal with |- _ /\ _ => split end; try (intros; reflexivity).
    intros; discriminate.
Qed.

Lemma detail_for_any_viewer_witness :
  (exists detail,
      PostById.GET Sample.env (mkPostRequest None "p2") Sample.db
        = (json (PostDetailBody detail) None, Sample.db)
      /\ PostWithUser.user detail = Sample.bob
      /\ PostWithUser.is_liked detail = false)
  /\ (exists detail,
        PostById.GET Sample.env (mkPostRequest (Some "clerk_ann") "p2") Sample.db
          = (json (PostDetailBody detail) None, Sample.db)
        /\ PostWithUser.is_liked detail = true).
Proof.
  split.
  - destruct (detail_for_any_viewer Sample.env None "p2" Sample.p2 Sample.bob Sample.db
                ltac:(discriminate) eq_refl eq_refl eq_refl eq_refl eq_refl)
      as (detail & Hrun & _ & _ & _ & _ & _ & _ & Huser & Hanon & _).
    exists detail. repeat split; [exact Hrun | exact Huser | now apply Hanon].
  - destruct (detail_for_any_viewer Sample.env (Some "clerk_ann") "p2" Sample.p2 Sample.bob
                Sample.db ltac:(discriminate) eq_refl eq_refl eq_refl eq_refl eq_refl)
      as (detail & Hrun & _ & _ & _ & _ & _ & _ & _ & _ & _ & Hliked).
    exists detail. split; [exact Hrun|].
    apply (Hliked "clerk_ann" Sample.ann eq_refl Sample_ann_signed_in
             eq_refl eq_refl).
Defined.

(** *** The annotations of a list page *)

Lemma list_response_exact env req db clerk u o l :
  list_session req = Some clerk -> signed_in clerk u db ->
  fault env CurrentUser = None -> fault env PostStatsRange = None ->
  page_offset req = Num o -> page_limit req = Num l -> (0 <= o)%Z -> (0 <= l)%Z ->
  (o + l <= MAX_SAFE_INTEGER)%Z ->
  let rows := firstn (Z.to_nat l) (skipn (Z.to_nat o) (feed_rows (userId_param req) db)) in
  let data := map (Posts.format_post (page_users env db rows) (page_likes env u db rows)) rows in
  Posts.GET env req db =
    (json (PostListBody data (Z.of_nat (List.length data) =? l)%Z
             (if (Z.of_nat (List.length data) =? l)%Z then Some (Num (o + l)) else None))
          None, db).
Proof.
  intros Hs [Hc Hu] F1 F2 Ho Hl Hopos Hlpos Hsafe.
  unfold page_offset in Ho. unfold page_limit in Hl.
  apply not_empty_eqb in Hc.
  unfold Posts.GET. unfold_handler. rewrite Hs. cbn. rewrite Hc. cbn. rewrite F1. cbn.
  rewrite Hu. cbn. rewrite F2. cbn. rewrite Ho, Hl.
  rewrite (page_end_exact o l Hopos Hlpos Hsafe), (js_add_exact o l Hopos Hlpos Hsafe).
  rewrite range_offset_limit.
  apply Z.ltb_ge in Hopos, Hlpos. rewrite Hopos, Hlpos. cbn.
  unfold page_users, page_likes.
  set (rows := firstn (Z.to_nat l) (skipn (Z.to_nat o) (feed_rows (userId_param req) db))).
  destruct (is_empty (nodup string_dec (map PostStats.user_id rows)));
    destruct (is_empty (map PostStats.post_id rows));
    cbn;
    repeat match goal with
           | |- context [fault env ?s] => destruct (fault env s); cbn
           end;
    reflexivity.
Qed.

Lemma find_rev_unique {A} (f : A -> bool) (l : list A) (x : A) :
  filter f l = [x] -> find f (rev l) = Some x.
Proof.
  intro H.
  assert (filter f (rev l) = [x]) as Hrev.
  { assert (forall (m : list A), filter f (rev m) = rev (filter f m)) as Hfr.
    { induction m as [|a m IH]; [reflexivity|]. simpl. rewrite filter_app, IH. simpl.
      destruct (f a); simpl; [reflexivity | now rewrite app_nil_r]. }
    rewrite Hfr, H. reflexivity. }
  clear H. induction (rev l) as [|a m IH]; simpl in *; [discriminate|].
  destruct (f a); [now injection Hrev as -> | now apply IH].
Qed.

Lemma filter_filter_implied {A} (f g : A -> bool) (l : list A) :
  (forall a, f a = true -> g a = true) -> filter f (filter g l) = filter f l.
Proof.
  intro H. induction l as [|a l IH]; [reflexivity|]. cbn [filter].
  destruct (g a) eqn:G.
  - cbn [filter]. destruct (f a); now rewrite IH.
  - destruct (f a) eqn:F; [rewrite (H a F) in G; discriminate | exact IH].
Qed.

Lemma find_none {A} (f : A -> bool) (l : list A) : filter f l = [] -> find f l = None.
Proof.
  induction l as [|a l IH]; simpl; [reflexivity|]. destruct (f a); [discriminate | exact IH].
Qed.

Lemma in_nodup_ids (rows : list PostStats.t) (row : PostStats.t) :
  In row rows ->
  existsb (String.eqb (PostStats.user_id row))
          (nodup string_dec (map PostStats.user_id rows)) = true.
Proof.
  intro Hin. apply existsb_exists. exists (PostStats.user_id row).
  split; [|apply String.eqb_refl]. apply nodup_In. now apply in_map.
Qed.

Lemma not_empty_of_In {A} (l : list A) x : In x l -> is_empty l = false.
Proof. destruct l; [contradiction | reflexivity]. Qed.

(** X11.  In the page the list handler answers with, each post is marked
    [is_liked] exactly when the likes table holds a row for that post and the
    requester, and it carries its owner's users row.  Neither lookup can fail
    the request: if the likes cannot be fetched every post is unmarked, and if
    the users cannot be fetched, or a post's owner has no row, the post is
    returned with the placeholder author "Unknown".  The page is the one of a
    non-negative offset and limit that add up within the exact integers. *)
Theorem list_page_annotations :
  forall env req db clerk u o l,
    list_session req = Some clerk -> signed_in clerk u db ->
    fault env CurrentUser = None -> fault env PostStatsRange = None ->
    page_offset req = Num o -> page_limit req = Num l -> (0 <= o)%Z -> (0 <= l)%Z ->
    (o + l <= MAX_SAFE_INTEGER)%Z ->
    let rows := firstn (Z.to_nat l) (skipn (Z.to_nat o) (feed_rows (userId_param req) db)) in
    exists usersMap liked has_more next_offset,
      Posts.GET env req db
        = (json (PostListBody (map (Posts.format_post usersMap liked) rows) has_more next_offset)
                None, db)
      /\ forall row,
           In row rows ->
           let item := Posts.format_post usersMap liked row in
           (fault env LikesIn = None ->
              PostWithUser.is_liked item
              = existsb (same_like (PostStats.post_id row) (User.id u)) (likes db))
           /\ (forall e, fault env LikesIn = Some e -> PostWithUser.is_liked item = false)
           /\ (forall owner, fault env UsersIn = None ->
                 users_by_id (PostStats.user_id row) db = [owner] ->
                 PostWithUser.user item = owner)
           /\ (fault env UsersIn = None -> users_by_id (PostStats.user_id row) db = [] ->
                 PostWithUser.user item = unknown_author row)
           /\ (forall e, fault env UsersIn = Some e ->
                 PostWithUser.user item = unknown_author row).
Proof.
  intros env req db clerk u o l Hs Hu F1 F2 Ho Hl Hopos Hlpos Hsafe rows.
  exists (page_users env db rows), (page_likes env u db rows). do 2 eexists.
  split; [apply (list_response_exact env req db clerk u o l Hs Hu F1 F2 Ho Hl Hopos Hlpos Hsafe)|].
  intros row Hin. cbv zeta. unfold Posts.format_post. cbn [PostWithUser.is_liked PostWithUser.user].
  unfold page_users, page_likes, map_get, unknown_author.
  rewrite (not_empty_of_In _ _ (in_map PostStats.post_id _ _ Hin)).
  assert (is_empty (nodup string_dec (map PostStats.user_id rows)) = false) as Hne.
  { apply (not_empty_of_In _ (PostStats.user_id row)). apply nodup_In. now apply in_map. }
  rewrite Hne. repeat split.
  - intros ->. apply Bool.eq_iff_eq_true. rewrite !existsb_exists. split.
    + intros (pid & Hpid & Heq). apply String.eqb_eq in Heq. subst pid.
      apply in_map_iff in Hpid as (like & Hlike & Hl').
      apply filter_In in Hl' as [Hl' Hmatch]. apply andb_true_iff in Hmatch as [Huser _].
      exists like. split; [exact Hl'|]. unfold same_like.
      rewrite Hlike, String.eqb_refl, Huser. reflexivity.
    + intros (like & Hl' & Hmatch). unfold same_like in Hmatch.
      apply andb_true_iff in Hmatch as [Hpost Huser]. apply String.eqb_eq in Hpost.
      exists (Like.post_id like). split; [|rewrite Hpost; apply String.eqb_refl].
      apply in_map. apply filter_In. split; [exact Hl'|]. rewrite Huser. cbn.
      apply existsb_exists. exists (PostStats.post_id row).
      split; [now apply in_map | rewrite Hpost; apply String.eqb_refl].
  - intros e ->. reflexivity.
  - intros owner -> Howner.
    erewrite find_rev_unique; [reflexivity|].
    unfold users_by_id in Howner.
    rewrite filter_filter_implied; [exact Howner|].
    intros a E. apply String.eqb_eq in E. rewrite E. apply (in_nodup_ids rows row Hin).
  - intros -> Hnone. rewrite find_none; [reflexivity|].
    unfold users_by_id in Hnone.
    assert (forall (g : User.t -> bool) (us : list User.t),
               filter (fun u0 => User.id u0 =? PostStats.user_id row) us = [] ->
               filter (fun u0 => User.id u0 =? PostStats.user_id row) (rev (filter g us)) = [])
      as Hff.
    { intros g us Hus. apply existsb_filter_nil.
      destruct (existsb _ (rev (filter g us))) eqn:E; [|reflexivity].
      apply existsb_exists in E as (x & Hx & Hxid).
      apply in_rev, filter_In in Hx as [Hx _].
      assert (In x (filter (fun u0 => User.id u0 =? PostStats.user_id row) us)) as Hbad
        by (apply filter_In; now split).
      rewrite Hus in Hbad. contradiction. }
    now apply Hff.
  - intros e ->. reflexivity.
Qed.

Lemma list_page_annotations_witness :
  exists usersMap liked has_more next_offset,
    Posts.GET Sample.env (mkListRequest (Some "clerk_ann") None None None) Sample.db
      = (json (PostListBody
                 (map (Posts.format_post usersMap liked) (feed_rows None Sample.db))
                 has_more next_offset) None, Sample.db)
    /\ map PostWithUser.is_liked
           (map (Posts.format_post usersMap liked) (feed_rows None Sample.db))
       = [false; true; false].
Proof.
  destruct (list_page_annotations Sample.env (mkListRequest (Some "clerk_ann") None None None)
              Sample.db "clerk_ann" Sample.ann 0%Z 10%Z
              eq_refl Sample_ann_signed_in eq_refl eq_refl eq_refl eq_refl
              ltac:(discriminate) ltac:(discriminate) ltac:(discriminate))
    as (um & lk & hm & next & Hrun & Hrows).
  exists um, lk, hm, next. split; [exact Hrun|].
  change (feed_rows None Sample.db)
    with [post_stats_row Sample.db Sample.p3; post_stats_row Sample.db Sample.p2;
          post_stats_row Sample.db Sample.p1] in *.
  cbn [map].
  rewrite (proj1 (Hrows (post_stats_row Sample.db Sample.p3) (or_introl eq_refl)) eq_refl).
  rewrite (proj1 (Hrows (post_stats_row Sample.db Sample.p2)
                    (or_intror (or_introl eq_refl))) eq_refl).
  rewrite (proj1 (Hrows (post_stats_row Sample.db Sample.p1)
                    (or_intror (or_intror (or_introl eq_refl)))) eq_refl).
  reflexivity.
Defined.

(** *** Creating a post *)

Lemma encodeURI_plain s : uri_plain s = true -> encodeURI s = s.
Proof.
  induction s as [|c s IH]; [reflexivity|]. cbn [uri_plain encodeURI].
  intro H. apply andb_true_iff in H as [Hc Hs]. rewrite Hc, (IH Hs). reflexivity.
Qed.

(** X12.  An accepted form from a resolved requester creates a post in two
    steps: the image is stored under [upload_path], a path below the
    requester's subject id, and one posts row is appended that belongs to the
    requester, carries the trimmed caption (none when it was blank) and points
    at the public URL of that path; the response returns the row.  The URL is
    the storage client's: base URL, bucket and path joined and passed through
    [encodeURI], so it is the plain join only when every code unit of it is
    one that [encodeURI] keeps.  If the upload fails, by a storage error or
    because the path is taken, the handler answers 500 "Failed to upload
    image" and nothing is stored. *)
Theorem post_creation :
  forall env clerk u fd f text db,
    signed_in clerk u db -> accepted_form fd f text ->
    fault env CurrentUser = None ->
    let path := upload_path env clerk f in
    let plain := (storage_url env ++ "/object/public/posts/" ++ path)%string in
    let url := encodeURI plain in
    let post := Post.mk (gen_random_uuid env) (User.id u) url text (now env) (now env) in
    (fault env StorageUpload = None -> existsb (String.eqb path) (bucket db) = false ->
     fault env PostInsert = None ->
       Posts.POST env (mkCreateRequest (Some clerk) (Some fd)) db
         = (json (PostCreatedBody post) None,
            mkDb (users db) (posts db ++ [post]) (likes db) (comments db) (follows db)
                 (path :: bucket db)))
    /\ (uri_plain plain = true -> url = plain)
    /\ (forall e, fault env StorageUpload = Some e ->
          Posts.POST env (mkCreateRequest (Some clerk) (Some fd)) db
            = (json (ErrorBody "Failed to upload image" (Some (message e))) (Some 500%nat), db))
    /\ (fault env StorageUpload = None -> existsb (String.eqb path) (bucket db) = true ->
          Posts.POST env (mkCreateRequest (Some clerk) (Some fd)) db
            = (json (ErrorBody "Failed to upload image" (Some (message object_exists)))
                    (Some 500%nat), db)).
Proof.
  intros env clerk u fd f text db [Hc Hu] Hform F1. cbv zeta.
  pose proof (signed_in_has_user clerk u db (conj Hc Hu)) as Huser.
  rewrite (create_passes_checks env clerk fd f text db Hc Hform).
  unfold_handler. unfold getPublicUrl. cbn. rewrite F1. cbn. rewrite Hu. cbn.
  split; [|split; [|split]].
  - intros F2 Hfree F3. rewrite F2. cbn. unfold storage_upload. rewrite Hfree. cbn.
    rewrite F3. cbn. unfold insert_post, has_user in *. cbn [users set_bucket].
    rewrite Huser. cbn. reflexivity.
  - apply encodeURI_plain.
  - intros e F2. rewrite F2. reflexivity.
  - intros F2 Htaken. rewrite F2. cbn. unfold storage_upload. rewrite Htaken. reflexivity.
Qed.

Lemma post_creation_witness :
  exists post db1,
    Posts.POST Sample.env
      (mkCreateRequest (Some "clerk_ann")
         (Some (mkFormData (Some (FileEntry (File.mk "photo.j pg" 1024 "image/jpeg")))
                  (Some (TextEntry " sunset ")))))
      Sample.db
    = (json (PostCreatedBody post) None, db1)
    /\ Post.caption post = Some "sunset"
    /\ Post.image_url post
       = "https://proj.supabase.co/storage/v1/object/public/posts/clerk_ann/100-k3x9.j%20pg"
    /\ bucket db1 = "clerk_ann/100-k3x9.j pg" :: bucket Sample.db.
Proof.
  destruct (post_creation Sample.env "clerk_ann" Sample.ann
              (mkFormData (Some (FileEntry (File.mk "photo.j pg" 1024 "image/jpeg")))
                 (Some (TextEntry " sunset ")))
              (File.mk "photo.j pg" 1024 "image/jpeg") (Some "sunset") Sample.db
              Sample_ann_signed_in) as (Hok & _).
  - repeat split; [discriminate | now left |].
    right. exists " sunset ". repeat split. vm_compute. now apply Nat.leb_le.
  - reflexivity.
  - do 2 eexists. split; [apply Hok; reflexivity|]. repeat split.
Defined.

(** *** The extension of the stored object *)

Lemma has_char_append c s t : has_char c (s ++ t)%string = has_char c s || has_char c t.
Proof.
  induction s as [|d s IH]; [reflexivity|].
  rewrite append_cons. cbn [has_char]. rewrite IH. now rewrite orb_assoc.
Qed.

Lemma has_char_reverse c s : has_char c (reverse s "") = has_char c s.
Proof.
  induction s as [|d s IH]; [reflexivity|].
  cbn [reverse]. rewrite (reverse_app s (String d "")), has_char_append, IH.
  cbn [has_char]. rewrite orb_false_r. apply orb_comm.
Qed.

Lemma last_segment_nil sep cur : last_segment sep "" cur = reverse cur "".
Proof. reflexivity. Qed.

Lemma last_segment_cons sep c rest cur :
  last_segment sep (String c rest) cur
  = if Ascii.eqb c sep then last_segment sep rest "" else last_segment sep rest (String c cur).
Proof. reflexivity. Qed.

Lemma last_segment_no_sep sep s cur :
  has_char sep cur = false -> has_char sep (last_segment sep s cur) = false.
Proof.
  revert cur.
  induction s as [|c s IH]; intros cur Hcur;
    [rewrite last_segment_nil | rewrite last_segment_cons].
  - now rewrite has_char_reverse.
  - destruct (Ascii.eqb c sep) eqn:E.
    + now apply IH.
    + apply IH. cbn [has_char]. now rewrite E.
Qed.

Lemma last_segment_whole sep s cur :
  has_char sep s = false -> last_segment sep s cur = (reverse cur "" ++ s)%string.
Proof.
  revert cur.
  induction s as [|c s IH]; intros cur Hs;
    [rewrite last_segment_nil | rewrite last_segment_cons].
  - now rewrite append_empty_r.
  - cbn [has_char] in Hs. apply orb_false_iff in Hs as [Hc Hs]. rewrite Hc.
    rewrite (IH _ Hs). cbn [reverse]. rewrite (reverse_app cur (String c "")).
    rewrite append_assoc. reflexivity.
Qed.

Lemma last_segment_split sep s cur :
  has_char sep s = true ->
  exists before, s = (before ++ String sep (last_segment sep s cur))%string.
Proof.
  revert cur. induction s as [|c s IH]; intros cur Hs; [discriminate Hs|].
  rewrite last_segment_cons. cbn [has_char] in Hs.
  destruct (Ascii.eqb c sep) eqn:E.
  - apply Ascii.eqb_eq in E. subst c.
    destruct (has_char sep s) eqn:Hrest.
    + destruct (IH "" eq_refl) as (before & Hbefore).
      exists (String sep before). rewrite append_cons. now rewrite <- Hbefore.
    + exists "". rewrite append_nil, (last_segment_whole sep s "" Hrest). reflexivity.
  - cbn in Hs. destruct (IH (String c cur) Hs) as (before & Hbefore).
    exists (String c before). rewrite append_cons. now rewrite <- Hbefore.
Qed.

(** X13.  The object a post's image is stored under is named
    clerkUserId/stem.ext, where the extension is never empty and never holds
    a dot: it is what follows the last dot of the file name, "jpg" when
    nothing follows it or the name is empty, and the whole file name when the
    name has no dot at all. *)
Theorem upload_path_extension :
  forall env clerk f,
    exists ext,
      upload_path env clerk f = (clerk ++ "/" ++ file_stem env ++ "." ++ ext)%string
      /\ ext <> "" /\ has_char "." ext = false
      /\ (has_char "." (File.name f) = false -> File.name f <> "" -> ext = File.name f)
      /\ (has_char "." (File.name f) = true ->
            (exists before, File.name f = (before ++ "." ++ ext)%string)
            \/ (ext = "jpg" /\ exists before, File.name f = (before ++ ".")%string))
      /\ (File.name f = "" -> ext = "jpg").
Proof.
  intros env clerk f. unfold upload_path.
  pose proof (last_segment_no_sep "." (File.name f) "" eq_refl) as Hnodot.
  destruct (last_segment "." (File.name f) "") as [|c ext] eqn:Hseg.
  - exists "jpg". repeat split; try discriminate.
    + intros Hno Hne. rewrite (last_segment_whole "." _ "" Hno) in Hseg.
      rewrite append_nil in Hseg. contradiction.
    + intro Hdot. right. split; [reflexivity|].
      destruct (last_segment_split "." (File.name f) "" Hdot) as (before & Hbefore).
      rewrite Hseg in Hbefore. now exists before.
  - exists (String c ext). repeat split; try discriminate.
    + exact Hnodot.
    + intros Hno _. rewrite (last_segment_whole "." _ "" Hno) in Hseg.
      now rewrite append_nil in Hseg.
    + intro Hdot. left.
      destruct (last_segment_split "." (File.name f) "" Hdot) as (before & Hbefore).
      rewrite Hseg in Hbefore. now exists before.
    + intro Hempty. rewrite Hempty in Hseg. discriminate Hseg.
Qed.

Lemma upload_path_extension_witness :
  exists ext,
    upload_path Sample.env "clerk_ann" (File.mk "snapshot" 10 "image/png")
      = ("clerk_ann" ++ "/" ++ "100-k3x9" ++ "." ++ ext)%string
    /\ ext = "snapshot".
Proof.
  destruct (upload_path_extension Sample.env "clerk_ann" (File.mk "snapshot" 10 "image/png"))
    as (ext & Hpath & _ & _ & Hwhole & _).
  exists ext. split; [exact Hpath|].
  apply Hwhole; [reflexivity | discriminate].
Defined.
